(** * IGitt: the GitHub repository, GitHub content and GitLab commit adapters

    A shallow embedding of [IGitt/GitHub/GitHubRepository.py],
    [IGitt/GitHub/GitHubContent.py] and [IGitt/GitLab/GitLabCommit.py].

    Python objects decoded from JSON are values of [json]; a method of a
    class is a computation in the monad [M O], which threads the receiver
    object [O] (its mutable fields) and the history of HTTP exchanges, and
    which ends in a value or in a raised exception.  The hosting service is
    an arbitrary function from the history and a request to a response, so
    that every theorem holds whatever the service answers. *)

From Stdlib Require Import ZArith String Ascii List Bool Lia DecimalString.
From stdpp Require Import base decidable option list gmap strings.

Local Open Scope Z_scope.
Set Warnings "-register-all,-clear-no-such-hyp".

(** ** Values decoded from JSON *)

Inductive json : Type :=
| JNull
| JBool (b : bool)
| JNum (n : Z)
| JStr (s : string)
| JArr (items : list json)
| JObj (fields : list (string * json)).

(** ** Exceptions *)

Inductive exn : Type :=
| RuntimeError (args : list json)
| ElementAlreadyExistsError (msg : string)
| ElementDoesntExistError (msg : string)
| KeyError (key : json)
| TypeError
| AttributeError
| IndexError
| AssertionError.

Inductive result (A : Type) : Type :=
| Ok (a : A)
| Raise (e : exn).
Arguments Ok {A} a.
Arguments Raise {A} e.

(** ** HTTP exchanges *)

Inductive hoster : Type := GitHub | GitLab.
Inductive verb : Type := GET | POST | PUT | DELETE.

Record request : Type := mkRequest {
  rq_hoster : hoster;
  rq_verb : verb;
  rq_token : string;
  rq_url : string;
  rq_params : list (string * json);
  rq_data : list (string * json)
}.

Record response : Type := mkResponse {
  status : Z;
  text : string;
  decoded : json
}.

Definition exchange : Type := request * response.
Definition history : Type := list exchange.

(** The hosting service: what it answers to a request, given everything
    that was exchanged before. *)
Definition provider : Type := history -> request -> response.

(** ** The monad of methods *)

Definition M (O A : Type) : Type := O -> history -> result A * O * history.

Definition ret {O A} (a : A) : M O A := fun o h => (Ok a, o, h).

Definition raise {O A} (e : exn) : M O A := fun o h => (Raise e, o, h).

Definition bind {O A B} (m : M O A) (k : A -> M O B) : M O B :=
  fun o h =>
    match m o h with
    | (Ok a, o', h') => k a o' h'
    | (Raise e, o', h') => (Raise e, o', h')
    end.

Notation "x <- c ;; k" := (bind c (fun x => k))
  (at level 100, c at next level, right associativity).
Notation "c ;;; k" := (bind c (fun _ => k))
  (at level 100, right associativity).

Definition lift {O A} (r : result A) : M O A := fun o h => (r, o, h).

Definition get_self {O} : M O O := fun o h => (Ok o, o, h).

Definition put_self {O} (o' : O) : M O unit := fun _ h => (Ok tt, o', h).

(** [try: ... except RuntimeError as ex: ...]; the fields assigned and the
    requests issued before the exception stay. *)
Definition try_except_RuntimeError {O A} (body : M O A)
    (handler : list json -> M O A) : M O A :=
  fun o h =>
    match body o h with
    | (Raise (RuntimeError args), o', h') => handler args o' h'
    | other => other
    end.

Fixpoint mapM {O A B} (f : A -> M O B) (l : list A) : M O (list B) :=
  match l with
  | [] => ret []
  | x :: l' => y <- f x ;; ys <- mapM f l' ;; ret (y :: ys)
  end.

Fixpoint forM_ {O A} (l : list A) (f : A -> M O unit) : M O unit :=
  match l with
  | [] => ret tt
  | x :: l' => f x ;;; forM_ l' f
  end.

(** ** Python on decoded values *)

Fixpoint assoc (k : string) (fields : list (string * json)) : option json :=
  match fields with
  | [] => None
  | (k', v) :: rest => if String.eqb k k' then Some v else assoc k rest
  end.

(** [v[k]] for a string [k]. *)
Definition getitem (v : json) (k : string) : result json :=
  match v with
  | JObj fields =>
      match assoc k fields with
      | Some x => Ok x
      | None => Raise (KeyError (JStr k))
      end
  | _ => Raise TypeError
  end.

(** [v.get(k)], which is [None] for a missing key. *)
Definition dict_get (v : json) (k : string) : result json :=
  match v with
  | JObj fields => Ok (default JNull (assoc k fields))
  | _ => Raise AttributeError
  end.

Fixpoint chars (s : string) : list json :=
  match s with
  | EmptyString => []
  | String c rest => JStr (String c EmptyString) :: chars rest
  end.

(** [for x in v]: what the loop ranges over. *)
Definition iter (v : json) : result (list json) :=
  match v with
  | JArr items => Ok items
  | JObj fields => Ok (map (fun kv => JStr (fst kv)) fields)
  | JStr s => Ok (chars s)
  | _ => Raise TypeError
  end.

(** Hashable values up to Python's [==]: [True == 1] and [False == 0]. *)
Inductive pykey : Type :=
| KNone
| KInt (n : Z)
| KStr (s : string).

Global Instance pykey_eq_dec : EqDecision pykey.
Proof. solve_decision. Defined.

Global Instance pykey_countable : Countable pykey.
Proof.
  refine (inj_countable'
    (fun k => match k with
              | KNone => inl tt
              | KInt n => inr (inl n)
              | KStr s => inr (inr s)
              end)
    (fun x => match x with
              | inl _ => KNone
              | inr (inl n) => KInt n
              | inr (inr s) => KStr s
              end) _).
  intros []; reflexivity.
Defined.

(** [hash(v)] fails on lists and dicts. *)
Definition key_of (v : json) : result pykey :=
  match v with
  | JNull => Ok KNone
  | JBool b => Ok (KInt (if b then 1 else 0))
  | JNum n => Ok (KInt n)
  | JStr s => Ok (KStr s)
  | JArr _ | JObj _ => Raise TypeError
  end.

(** [v == s] for a string [s]. *)
Definition eq_str (v : json) (s : string) : bool :=
  match v with
  | JStr s' => String.eqb s' s
  | _ => false
  end.

(** [v == n] for an integer [n]. *)
Definition eq_int (v : json) (n : Z) : bool :=
  match v with
  | JNum m => m =? n
  | JBool b => (if b then 1 else 0) =? n
  | _ => false
  end.

Definition str_of_Z (n : Z) : string := NilZero.string_of_int (Z.to_int n).

Definition truthy_str (s : string) : bool :=
  match s with
  | EmptyString => false
  | _ => true
  end.

(** [s.lstrip('#')] *)
Fixpoint lstrip_hash (s : string) : string :=
  match s with
  | String "#" rest => lstrip_hash rest
  | _ => s
  end.

(** ** [int(s)] on a string

    A [str] is held as its UTF-8 encoding.  [int] goes through the string
    one code point at a time: a code point below 127 stands for itself,
    any other white space becomes a blank, any other decimal digit becomes
    the ASCII digit of the same value, and nothing else is accepted.  The
    outcome is read in base ten: white space is dropped at both ends, one
    sign is allowed, the digits may be grouped by single underscores, and
    more than [int_max_str_digits] digits are refused. *)

Definition code (c : ascii) : Z := Z.of_nat (nat_of_ascii c).

(** The six bits that a byte [10xxxxxx] carries. *)
Definition continuation (c : ascii) : option Z :=
  let n := code c in
  if (128 <=? n) && (n <=? 191) then Some (n - 128) else None.

(** A code point that needs the length it was written with, and that is
    no surrogate. *)
Definition scalar (least cp : Z) : option Z :=
  if (least <=? cp) && (cp <=? 0x10FFFF)
     && negb ((0xD800 <=? cp) && (cp <=? 0xDFFF))
  then Some cp else None.

(** The code points of the string; [None] on bytes that encode no text. *)
Fixpoint decode_utf8 (l : list ascii) : option (list Z) :=
  match l with
  | [] => Some []
  | b1 :: rest1 =>
      let n1 := code b1 in
      if n1 <? 128 then cons n1 <$> decode_utf8 rest1
      else if n1 <? 192 then None
      else if n1 <? 224 then
        match rest1 with
        | b2 :: rest2 =>
            match continuation b2 with
            | Some n2 =>
                match scalar 0x80 ((n1 - 192) * 64 + n2) with
                | Some cp => cons cp <$> decode_utf8 rest2
                | None => None
                end
            | None => None
            end
        | _ => None
        end
      else if n1 <? 240 then
        match rest1 with
        | b2 :: b3 :: rest3 =>
            match continuation b2, continuation b3 with
            | Some n2, Some n3 =>
                match scalar 0x800 (((n1 - 224) * 64 + n2) * 64 + n3) with
                | Some cp => cons cp <$> decode_utf8 rest3
                | None => None
                end
            | _, _ => None
            end
        | _ => None
        end
      else if n1 <? 248 then
        match rest1 with
        | b2 :: b3 :: b4 :: rest4 =>
            match continuation b2, continuation b3, continuation b4 with
            | Some n2, Some n3, Some n4 =>
                match scalar 0x10000
                        ((((n1 - 240) * 64 + n2) * 64 + n3) * 64 + n4) with
                | Some cp => cons cp <$> decode_utf8 rest4
                | None => None
                end
            | _, _, _ => None
            end
        | _ => None
        end
      else None
  end.

Definition in_ranges (ranges : list (Z * Z)) (cp : Z) : bool :=
  existsb (fun range => (range.1 <=? cp) && (cp <=? range.2)) ranges.

(** [Py_UNICODE_ISSPACE], what [str.isspace] accepts. *)
Definition Py_UNICODE_ISSPACE (cp : Z) : bool :=
  in_ranges [(0x09, 0x0D); (0x1C, 0x20); (0x85, 0x85); (0xA0, 0xA0);
             (0x1680, 0x1680); (0x2000, 0x200A); (0x2028, 0x2029);
             (0x202F, 0x202F); (0x205F, 0x205F); (0x3000, 0x3000)] cp.

(** The decimal digits come in runs of ten; these are the zeros of the
    runs (Unicode 14, which Python 3.11 carries). *)
Definition decimal_zeros : list Z :=
  [0x30; 0x660; 0x6F0; 0x7C0; 0x966; 0x9E6; 0xA66; 0xAE6; 0xB66; 0xBE6;
   0xC66; 0xCE6; 0xD66; 0xDE6; 0xE50; 0xED0; 0xF20; 0x1040; 0x1090;
   0x17E0; 0x1810; 0x1946; 0x19D0; 0x1A80; 0x1A90; 0x1B50; 0x1BB0;
   0x1C40; 0x1C50; 0xA620; 0xA8D0; 0xA900; 0xA9D0; 0xA9F0; 0xAA50;
   0xABF0; 0xFF10; 0x104A0; 0x10D30; 0x11066; 0x110F0; 0x11136; 0x111D0;
   0x112F0; 0x11450; 0x114D0; 0x11650; 0x116C0; 0x11730; 0x118E0;
   0x11950; 0x11C50; 0x11D50; 0x11DA0; 0x16A60; 0x16AC0; 0x16B50;
   0x1D7CE; 0x1D7D8; 0x1D7E2; 0x1D7EC; 0x1D7F6; 0x1E140; 0x1E2F0;
   0x1E950; 0x1FBF0].

(** [Py_UNICODE_TODECIMAL] *)
Definition Py_UNICODE_TODECIMAL (cp : Z) : option Z :=
  (fun zero => cp - zero)
    <$> List.find (fun zero => (zero <=? cp) && (cp <? zero + 10))
                  decimal_zeros.

(** One step of [_PyUnicode_TransformDecimalAndSpaceToASCII]. *)
Definition transform_char (cp : Z) : option ascii :=
  if cp <? 127 then Some (ascii_of_nat (Z.to_nat cp))
  else if Py_UNICODE_ISSPACE cp then Some " "%char
  else (fun d => ascii_of_nat (Z.to_nat (48 + d)))
         <$> Py_UNICODE_TODECIMAL cp.

Fixpoint transform (cps : list Z) : option (list ascii) :=
  match cps with
  | [] => Some []
  | cp :: rest =>
      match transform_char cp with
      | Some c => cons c <$> transform rest
      | None => None
      end
  end.

(** [Py_ISSPACE] *)
Definition is_space (c : ascii) : bool :=
  let n := nat_of_ascii c in
  ((9 <=? n) && (n <=? 13) || (n =? 32))%nat.

Definition digit_of (c : ascii) : option Z :=
  let n := nat_of_ascii c in
  if ((48 <=? n) && (n <=? 57))%nat then Some (Z.of_nat (n - 48)) else None.

Fixpoint lstrip_space (l : list ascii) : list ascii :=
  match l with
  | c :: rest => if is_space c then lstrip_space rest else l
  | [] => []
  end.

Definition strip_space (l : list ascii) : list ascii :=
  rev (lstrip_space (rev (lstrip_space l))).

Fixpoint parse_digits (acc : Z) (after_digit : bool) (l : list ascii)
    : option Z :=
  match l with
  | [] => if after_digit then Some acc else None
  | c :: rest =>
      match digit_of c with
      | Some d => parse_digits (10 * acc + d) true rest
      | None =>
          if Ascii.eqb c "_" && after_digit
          then parse_digits acc false rest
          else None
      end
  end.

(** [sys.int_info.default_max_str_digits] *)
Definition int_max_str_digits : nat := 4300.

Definition count_digits (l : list ascii) : nat :=
  length (filter (fun c => is_Some (digit_of c)) l).

(** The digits after the sign; the underscores do not count for the
    limit. *)
Definition read_digits (l : list ascii) : option Z :=
  if (int_max_str_digits <? count_digits l)%nat then None
  else parse_digits 0 false l.

(** [PyLong_FromString] in base ten, on a string that must be used up. *)
Definition PyLong_FromString (l : list ascii) : option Z :=
  match strip_space l with
  | c :: rest =>
      if Ascii.eqb c "-" then Z.opp <$> read_digits rest
      else if Ascii.eqb c "+" then read_digits rest
      else read_digits (c :: rest)
  | [] => None
  end.

(** [None] stands for [ValueError]. *)
Definition int_of_str (s : string) : option Z :=
  match decode_utf8 (list_ascii_of_string s) with
  | Some cps =>
      match transform cps with
      | Some l => PyLong_FromString l
      | None => None
      end
  | None => None
  end.

(** The [repository] argument, [Union[str, int]]. *)
Inductive repo_id : Type :=
| RepoName (s : string)
| RepoNumber (n : Z).

(** ** The HTTP access layer *)

Definition ok_status (s : Z) : bool := (200 <=? s) && (s <? 300).

Definition transport_error (rs : response) : exn :=
  RuntimeError [JStr (text rs); JNum (status rs)].

Section Transport.
Context (P : provider).

(** Modelled from the spec: the access layer [_fetch] of
    [IGitt/Interfaces/__init__.py] is not among the sources.  Following
    section 4.1, one call is one exchange with the service, whose answer
    is the decoded body (all pages joined, the response cache consulted)
    for a 2xx status and a [RuntimeError] carrying the raw body and the
    status code otherwise. *)
Definition _fetch {O} (rq : request) : M O json :=
  fun o h =>
    let rs := P h rq in
    if ok_status (status rs)
    then (Ok (decoded rs), o, h ++ [(rq, rs)])
    else (Raise (transport_error rs), o, h ++ [(rq, rs)]).
End Transport.

(** ** The lazy data object base *)

(** What [GitHubMixin] and [GitLabMixin] give a class: the hoster, and the
    fields [_token], [_url] and the cached snapshot. *)
Class IGittObject (O : Type) : Type := {
  hoster_of : hoster;
  token_of : O -> string;
  url_of : O -> string;
  cache_of : O -> option json;
  with_cache : option json -> O -> O
}.
Arguments hoster_of O {_}.

Section Lazy.
Context (P : provider) {O : Type} `{IGittObject O}.

(** Modelled from the spec: the [data] property of [IGittObject] is not
    among the sources.  Following section 4.2, the first read issues a
    GET to the object's URL and caches the decoded body, later reads
    return the cached value without a request. *)
Definition data : M O json :=
  self <- get_self ;;
  match cache_of self with
  | Some d => ret d
  | None =>
      d <- _fetch P (mkRequest (hoster_of O) GET (token_of self)
                               (url_of self) [] []) ;;
      put_self (with_cache (Some d) self) ;;;
      ret d
  end.

(** Modelled from the spec: assigning to [data] seeds the cache without a
    request. *)
Definition set_data (d : json) : M O unit :=
  self <- get_self ;;
  put_self (with_cache (Some d) self).
End Lazy.

(** Modelled from the spec: the other entity classes (commit, issue, merge
    request, organization) are not among the sources.  Their constructors
    keep the identity arguments and issue no request, and [from_data] also
    seeds the cache (section 4.2). *)
Inductive entity_kind : Type :=
| GitHubCommit
| GitHubIssue
| GitHubMergeRequest
| GitHubOrganization.

Record entity : Type := mkEntity {
  e_kind : entity_kind;
  e_token : string;
  e_args : list json;
  e_data : option json
}.

Definition from_data (k : entity_kind) (payload : json) (token : string)
    (args : list json) : entity :=
  mkEntity k token args (Some payload).

(** ** The request helpers of the two providers *)

(** Modelled from the spec: [get], [post], [put] and [delete] of
    [IGitt/GitHub/__init__.py] are not among the sources; each is
    [_fetch] with the provider's base URL and the given verb. *)
Module GH.
Section Verbs.
Context (P : provider) {O : Type}.

Definition get (token url : string) (params : list (string * json))
    : M O json :=
  _fetch P (mkRequest GitHub GET token url params []).

Definition post (token url : string) (data : list (string * json))
    : M O json :=
  _fetch P (mkRequest GitHub POST token url [] data).

Definition put (token url : string) (data : list (string * json))
    : M O json :=
  _fetch P (mkRequest GitHub PUT token url [] data).

Definition delete (token url : string) (params : list (string * json))
    : M O json :=
  _fetch P (mkRequest GitHub DELETE token url params []).
End Verbs.
End GH.

(** Modelled from the spec: [get] and [post] of [IGitt/GitLab/__init__.py]
    are not among the sources. *)
Module GL.
Section Verbs.
Context (P : provider) {O : Type}.

Definition get (token url : string) (params : list (string * json))
    : M O json :=
  _fetch P (mkRequest GitLab GET token url params []).

Definition post (token url : string) (data : list (string * json))
    : M O json :=
  _fetch P (mkRequest GitLab POST token url [] data).
End Verbs.
End GL.

(** [str(v)]; [py_repr] stands for Python's rendering of lists and
    dicts. *)
Definition py_str (py_repr : json -> string) (v : json) : string :=
  match v with
  | JNull => "None"
  | JBool true => "True"
  | JBool false => "False"
  | JNum n => str_of_Z n
  | JStr s => s
  | JArr _ | JObj _ => py_repr v
  end.

(** ** GitHubContent.py *)

Module GitHubContent.
Record t : Type := mk {
  _token : string;
  _repository : string;
  _url : string;
  _data : option json
}.

#[export] Instance igitt : IGittObject t := {|
  hoster_of := GitHub;
  token_of := _token;
  url_of := _url;
  cache_of := _data;
  with_cache d o := mk (_token o) (_repository o) (_url o) d
|}.

Definition __init__ (token repository path : string) : t :=
  mk token repository ("/repos/" +:+ repository +:+ "/contents/" +:+ path)
     None.

Section Methods.
Context (P : provider) (b64encode : string -> string).

Definition get_content (ref : string) : M t unit :=
  self <- get_self ;;
  let data_ := [("path", JStr (_url self)); ("ref", JStr ref)] in
  r <- GH.get P (_token self) (_url self) data_ ;;
  set_data r.

Definition delete (message : string) (branch : option string)
    : M t unit :=
  let branch := default "master" branch in
  self <- get_self ;;
  d <- data P ;;
  sha <- lift (getitem d "sha") ;;
  let data_ := [("path", JStr (_url self)); ("message", JStr message);
                ("sha", sha); ("branch", JStr branch)] in
  GH.delete P (_token self) (_url self) data_ ;;;
  ret tt.

Definition update (message content : string) (branch : option string)
    : M t unit :=
  let content := b64encode content in
  let branch := default "master" branch in
  self <- get_self ;;
  d <- data P ;;
  sha <- lift (getitem d "sha") ;;
  let data_ := [("path", JStr (_url self)); ("message", JStr message);
                ("sha", sha); ("branch", JStr branch);
                ("content", JStr content)] in
  GH.put P (_token self) (_url self) data_ ;;;
  ret tt.
End Methods.
End GitHubContent.

(** ** Interfaces/Repository.py *)

Inductive WebhookEvents : Type :=
| PUSH
| ISSUE
| MERGE_REQUEST
| ISSUE_COMMENT
| COMMIT_COMMENT
| MERGE_REQUEST_COMMENT.

(** ** String helpers of the repository class *)

(** [s.replace(old, new, 1)] *)
Fixpoint replace_first (old new s : string) : string :=
  if String.prefix old s
  then new +:+ String.substring (String.length old)
                                (String.length s - String.length old) s
  else match s with
       | EmptyString => EmptyString
       | String c rest => String c (replace_first old new rest)
       end.

(** [s.split('/', maxsplit=1)[0]] *)
Fixpoint before_slash (s : string) : string :=
  match s with
  | EmptyString => EmptyString
  | String "/" _ => EmptyString
  | String c rest => String c (before_slash rest)
  end.

Fixpoint has_substring (sub s : string) : bool :=
  String.prefix sub s ||
  match s with
  | EmptyString => false
  | String _ rest => has_substring sub rest
  end.

(** [k in v] for a string [k]. *)
Definition contains (v : json) (k : string) : result bool :=
  match v with
  | JObj fields => Ok (bool_decide (is_Some (assoc k fields)))
  | JArr items => Ok (existsb (fun x => eq_str x k) items)
  | JStr s => Ok (has_substring k s)
  | _ => Raise TypeError
  end.

Record datetime : Type := mkDatetime {
  year : Z; month : Z; day : Z; hour : Z; minute : Z; second : Z
}.

(** The four optional bounds of a search; [None] is the default [''],
    which is false, and a [datetime] is always true. *)
Record search_args : Type := mkSearch {
  created_after : option datetime;
  created_before : option datetime;
  updated_after : option datetime;
  updated_before : option datetime
}.

Definition supplied (d : option datetime) : bool :=
  match d with
  | Some _ => true
  | None => false
  end.

(** ** GitHubRepository.py *)

Module GitHubRepository.

Definition GH_WEBHOOK_TRANSLATION (e : WebhookEvents) : string :=
  match e with
  | PUSH => "push"
  | ISSUE => "issues"
  | MERGE_REQUEST => "pull_request"
  | COMMIT_COMMENT => "commit_comment"
  | MERGE_REQUEST_COMMENT => "issue_comment"
  | ISSUE_COMMENT => "issue_comment"
  end.

Definition GH_ISSUE_STATE_TRANSLATION (state : string) : result string :=
  if String.eqb state "opened" then Ok "open"
  else if String.eqb state "closed" then Ok "closed"
  else if String.eqb state "all" then Ok "all"
  else Raise (KeyError (JStr state)).

Record t : Type := mk {
  _token : string;
  _repository : option string;
  _url : string;
  _data : option json
}.

#[export] Instance igitt : IGittObject t := {|
  hoster_of := GitHub;
  token_of := _token;
  url_of := _url;
  cache_of := _data;
  with_cache d o := mk (_token o) (_repository o) (_url o) d
|}.

(** [int(repository)] succeeds on an integer and on a string that reads
    as one; [ValueError] leaves the string as the name. *)
Definition __init__ (token : string) (repository : repo_id) : t :=
  match repository with
  | RepoNumber n => mk token None ("/repositories/" +:+ str_of_Z n) None
  | RepoName s =>
      match int_of_str s with
      | Some n => mk token None ("/repositories/" +:+ str_of_Z n) None
      | None => mk token (Some s) ("/repos/" +:+ s) None
      end
  end.

(** The constructor applied to a decoded value, as in [create_fork]:
    [int] raises [TypeError] on what is neither a number nor a string. *)
Definition of_json (token : string) (v : json) : result t :=
  match v with
  | JStr s => Ok (__init__ token (RepoName s))
  | JNum n => Ok (__init__ token (RepoNumber n))
  | JBool b => Ok (__init__ token (RepoNumber (if b then 1 else 0)))
  | _ => Raise TypeError
  end.

(** A generator made by [search_mrs] or [search_issues]: nothing of the
    body has run before the first [next]. *)
Inductive generator : Type :=
| GenNew (k : entity_kind) (a : search_args)
| GenLoop (k : entity_kind) (rest : list json)
| GenDone.

Section Methods.
Context (P : provider) (py_repr : json -> string)
        (b64encode : string -> string)
        (strftime : datetime -> string -> string).

(** [GitHubIssue.create], a static method of a class that is not among
    the sources: it sees the token, the repository name, the title and
    the body, and talks to the service. *)
Context (GitHubIssue_create :
           string -> json -> string -> string ->
           history -> result entity * history).

Definition identifier : M t json :=
  d <- data P ;;
  lift (getitem d "id").

Definition top_level_org : M t entity :=
  self <- get_self ;;
  match _repository self with
  | Some s =>
      ret (mkEntity GitHubOrganization (_token self)
                    [JStr (before_slash s)] None)
  | None => raise AttributeError
  end.

(** [self._repository or self.data['full_name']] *)
Definition full_name : M t json :=
  self <- get_self ;;
  match _repository self with
  | Some s =>
      if truthy_str s then ret (JStr s)
      else d <- data P ;; lift (getitem d "full_name")
  | None => d <- data P ;; lift (getitem d "full_name")
  end.

(** The set is listed in the order in which its elements are added. *)
Definition commits : M t (list entity) :=
  try_except_RuntimeError
    (self <- get_self ;;
     resp <- GH.get P (_token self) (_url self +:+ "/commits") [] ;;
     items <- lift (iter resp) ;;
     mapM (fun commit =>
             name <- full_name ;;
             sha <- lift (getitem commit "sha") ;;
             ret (from_data GitHubCommit commit (_token self)
                            [name; sha]))
          items)
    (fun args =>
       match args !! 1%nat with
       | Some code =>
           if eq_int code 409 then ret [] else raise (RuntimeError args)
       | None => raise IndexError
       end).

Definition clone_url : M t string :=
  d <- data P ;;
  u <- lift (getitem d "clone_url") ;;
  self <- get_self ;;
  match u with
  | JStr s =>
      ret (replace_first "github.com" (_token self +:+ "@github.com") s)
  | _ => raise AttributeError
  end.

Definition get_labels : M t (gset pykey) :=
  self <- get_self ;;
  resp <- GH.get P (_token self) (_url self +:+ "/labels") [] ;;
  items <- lift (iter resp) ;;
  names <- mapM (fun label =>
                   v <- lift (getitem label "name") ;;
                   lift (key_of v))
                items ;;
  ret (list_to_set names).

Definition create_label (name color : string) : M t unit :=
  labels <- get_labels ;;
  if decide (KStr name ∈ labels)
  then raise (ElementAlreadyExistsError (name +:+ " already exists."))
  else
    self <- get_self ;;
    r <- GH.post P (_token self) (_url self +:+ "/labels")
                 [("name", JStr name);
                  ("color", JStr (lstrip_hash color))] ;;
    set_data r.

Definition delete_label (name : string) : M t unit :=
  labels <- get_labels ;;
  if decide (KStr name ∈ labels)
  then
    self <- get_self ;;
    GH.delete P (_token self) (_url self +:+ "/labels/" +:+ name) [] ;;;
    ret tt
  else raise (ElementDoesntExistError (name +:+ " doesnt exist.")).

Definition get_issue (issue_number : json) : M t entity :=
  self <- get_self ;;
  name <- full_name ;;
  ret (mkEntity GitHubIssue (_token self) [name; issue_number] None).

Definition get_mr (mr_number : json) : M t entity :=
  self <- get_self ;;
  name <- full_name ;;
  ret (mkEntity GitHubMergeRequest (_token self) [name; mr_number] None).

Definition hooks : M t (gset pykey) :=
  self <- get_self ;;
  let hook_url := _url self +:+ "/hooks" in
  hooks <- GH.get P (_token self) hook_url [] ;;
  items <- lift (iter hooks) ;;
  results <- mapM (fun hook =>
                     config <- lift (getitem hook "config") ;;
                     u <- lift (dict_get config "url") ;;
                     lift (key_of u))
                  items ;;
  ret (list_to_set results ∖ {[KNone]}).

Definition register_hook (url : string) (secret : option string)
    (events : option (list WebhookEvents)) : M t unit :=
  hs <- hooks ;;
  if decide (KStr url ∈ hs) then ret tt
  else
    let config :=
      [("url", JStr url); ("content_type", JStr "json")] ++
      match secret with
      | Some s => if truthy_str s then [("secret", JStr s)] else []
      | None => []
      end in
    let reg_events :=
      match events with
      | Some (e :: es) =>
          map (fun e => JStr (GH_WEBHOOK_TRANSLATION e)) (e :: es)
      | _ => []
      end in
    self <- get_self ;;
    r <- GH.post P (_token self) (_url self +:+ "/hooks")
                 [("name", JStr "web"); ("active", JBool true);
                  ("config", JObj config);
                  ("events", JArr match reg_events with
                                  | [] => [JStr "*"]
                                  | _ => reg_events
                                  end)] ;;
    set_data r.

Definition delete_hook (url : string) : M t unit :=
  self <- get_self ;;
  let hook_url := _url self +:+ "/hooks" in
  hooks <- GH.get P (_token self) hook_url [] ;;
  items <- lift (iter hooks) ;;
  forM_ items (fun hook =>
    config <- lift (getitem hook "config") ;;
    u <- lift (dict_get config "url") ;;
    if eq_str u url
    then
      id <- lift (getitem hook "id") ;;
      GH.delete P (_token self)
                (hook_url +:+ "/" +:+ py_str py_repr id) [] ;;;
      ret tt
    else ret tt).

Definition merge_requests : M t (list entity) :=
  self <- get_self ;;
  resp <- GH.get P (_token self) (_url self +:+ "/pulls") [] ;;
  items <- lift (iter resp) ;;
  mapM (fun res =>
          name <- full_name ;;
          number <- lift (getitem res "number") ;;
          ret (mkEntity GitHubMergeRequest (_token self)
                        [name; number] None))
       items.

Definition filter_issues (state : string) : M t (list entity) :=
  self <- get_self ;;
  st <- lift (GH_ISSUE_STATE_TRANSLATION state) ;;
  resp <- GH.get P (_token self) (_url self +:+ "/issues")
                 [("state", JStr st)] ;;
  items <- lift (iter resp) ;;
  kept <- mapM (fun res =>
                  is_pr <- lift (contains res "pull_request") ;;
                  if is_pr : bool then ret None
                  else
                    name <- full_name ;;
                    number <- lift (getitem res "number") ;;
                    ret (Some (from_data GitHubIssue res (_token self)
                                         [name; number])))
               items ;;
  ret (omap id kept).

Definition issues : M t (list entity) := filter_issues "opened".

Definition create_issue (title body : string) : M t entity :=
  self <- get_self ;;
  name <- full_name ;;
  fun o h =>
    let '(r, h') := GitHubIssue_create (_token self) name title body h in
    (r, o, h').

Definition create_fork (organization : option string) : M t t :=
  self <- get_self ;;
  let url := _url self +:+ "/forks" in
  let data_ := match organization with
               | Some org => [("organization", JStr org)]
               | None => []
               end in
  response <- GH.post P (_token self) url data_ ;;
  name <- lift (getitem response "full_name") ;;
  lift (of_json (_token self) name).

Definition delete : M t unit :=
  self <- get_self ;;
  GH.delete P (_token self) (_url self) [] ;;;
  ret tt.

Definition create_merge_request (title base head : string)
    (body : option string) : M t entity :=
  self <- get_self ;;
  let data_ := [("title", JStr title);
                ("body", from_option JStr JNull body);
                ("base", JStr base); ("head", JStr head)] in
  let url := _url self +:+ "/pulls" in
  json_ <- GH.post P (_token self) url data_ ;;
  b <- lift (getitem json_ "base") ;;
  r <- lift (getitem b "repo") ;;
  name <- lift (getitem r "full_name") ;;
  number <- lift (getitem json_ "number") ;;
  ret (mkEntity GitHubMergeRequest (_token self) [name; number] None).

Definition create_file (path message content : string)
    (branch : option string) : M t GitHubContent.t :=
  self <- get_self ;;
  let url := _url self +:+ "/contents/" +:+ path in
  let content := b64encode content in
  let data_ := [("path", JStr path); ("message", JStr message);
                ("content", JStr content);
                ("branch", from_option JStr JNull branch)] in
  json_ <- GH.put P (_token self) url data_ ;;
  c <- lift (getitem json_ "content") ;;
  p <- lift (getitem c "path") ;;
  match _repository self, p with
  | Some repository, JStr p =>
      ret (GitHubContent.__init__ (_token self) repository p)
  | _, _ => raise TypeError
  end.

Definition _search (issue_type : string) (a : search_args)
    : M t json :=
  self <- get_self ;;
  repository <- match _repository self with
                | Some s => ret s
                | None => raise TypeError
                end ;;
  let query := " type:" +:+ issue_type +:+ " state:open repo:"
               +:+ repository in
  if supplied (created_after a) && supplied (created_before a)
     || supplied (updated_after a) && supplied (updated_before a)
  then raise (RuntimeError
                [JStr "Cannot process before and after date simultaneously"])
  else
    let query :=
      match created_after a, created_before a with
      | Some d, _ =>
          query +:+ " created:>=" +:+ strftime d "%Y-%m-%dT%H:%M:%SZ"
      | None, Some d =>
          query +:+ " created:<" +:+ strftime d "%Y-%m-%dT%H:%M:%SZ"
      | None, None => query
      end in
    let query :=
      match updated_after a, updated_before a with
      | Some d, _ =>
          query +:+ " updated:>=" +:+ strftime d "%Y-%m-%dT%H:%M:%SZ"
      | None, Some d =>
          query +:+ " updated:<" +:+ strftime d "%Y-%m-%dT%H:%M:%SZ"
      | None, None => query
      end in
    let base_url := "/search/issues" in
    let query_params := [("q", JStr query); ("per_page", JStr "100")] in
    GH.get P (_token self) base_url query_params.

(** Calling a generator function only makes the generator. *)
Definition search_mrs (a : search_args) : generator :=
  GenNew GitHubMergeRequest a.

Definition search_issues (a : search_args) : generator :=
  GenNew GitHubIssue a.

(** One turn of the [for] loop of the generator body: the entity is
    made by [get_mr] or [get_issue], its data is set, and it is
    yielded. *)
Definition yield_from (k : entity_kind) (rest : list json)
    : M t (option entity * generator) :=
  match rest with
  | [] => ret (None, GenDone)
  | item :: rest' =>
      number <- lift (getitem item "number") ;;
      e <- match k with
           | GitHubMergeRequest => get_mr number
           | _ => get_issue number
           end ;;
      ret (Some (mkEntity (e_kind e) (e_token e) (e_args e) (Some item)),
           GenLoop k rest')
  end.

(** [next(g)]; [None] is [StopIteration]. *)
Definition next (g : generator) : M t (option entity * generator) :=
  match g with
  | GenNew k a =>
      resp <- _search match k with
                      | GitHubMergeRequest => "pr"
                      | _ => "issue"
                      end a ;;
      items <- lift (iter resp) ;;
      yield_from k items
  | GenLoop k rest => yield_from k rest
  | GenDone => ret (None, GenDone)
  end.

(** The operations of the class, each run for its effect only. *)
Inductive operation : Type :=
| Op_identifier
| Op_top_level_org
| Op_full_name
| Op_commits
| Op_clone_url
| Op_get_labels
| Op_create_label (name color : string)
| Op_delete_label (name : string)
| Op_get_issue (issue_number : json)
| Op_get_mr (mr_number : json)
| Op_hooks
| Op_register_hook (url : string) (secret : option string)
                   (events : option (list WebhookEvents))
| Op_delete_hook (url : string)
| Op_merge_requests
| Op_filter_issues (state : string)
| Op_issues
| Op_create_issue (title body : string)
| Op_create_fork (organization : option string)
| Op_delete
| Op_create_merge_request (title base head : string)
                          (body : option string)
| Op_create_file (path message content : string)
                 (branch : option string)
| Op__search (issue_type : string) (a : search_args)
| Op_next (g : generator).

Definition void {A} (m : M t A) : M t unit := m ;;; ret tt.

Definition run (op : operation) : M t unit :=
  match op with
  | Op_identifier => void identifier
  | Op_top_level_org => void top_level_org
  | Op_full_name => void full_name
  | Op_commits => void commits
  | Op_clone_url => void clone_url
  | Op_get_labels => void get_labels
  | Op_create_label name color => create_label name color
  | Op_delete_label name => delete_label name
  | Op_get_issue n => void (get_issue n)
  | Op_get_mr n => void (get_mr n)
  | Op_hooks => void hooks
  | Op_register_hook url secret events => register_hook url secret events
  | Op_delete_hook url => delete_hook url
  | Op_merge_requests => void merge_requests
  | Op_filter_issues state => void (filter_issues state)
  | Op_issues => void issues
  | Op_create_issue title body => void (create_issue title body)
  | Op_create_fork organization => void (create_fork organization)
  | Op_delete => delete
  | Op_create_merge_request title base head body =>
      void (create_merge_request title base head body)
  | Op_create_file path message content branch =>
      void (create_file path message content branch)
  | Op__search issue_type a => void (_search issue_type a)
  | Op_next g => void (next g)
  end.
End Methods.
End GitHubRepository.

(** ** Interfaces/CommitStatus.py *)

(** The states that the GitLab translation table mentions. *)
Inductive Status : Type :=
| RUNNING
| CANCELED
| FAILED
| PENDING
| SUCCESS.

(** Modelled from the spec: [CommitStatus] is not among the sources; it
    holds the state, the description, the context (the status name) and the
    target URL it is constructed with. *)
Record CommitStatus : Type := mkCommitStatus {
  cs_status : Status;
  cs_description : json;
  cs_context : json;
  cs_url : json
}.

(** [d[k] = v] on a dict kept in insertion order. *)
Fixpoint dict_set (k : string) (v : json) (fields : list (string * json))
    : list (string * json) :=
  match fields with
  | [] => [(k, v)]
  | (k', v') :: rest =>
      if String.eqb k k' then (k, v) :: rest
      else (k', v') :: dict_set k v rest
  end.

(** [try: ... except ElementDoesntExistError: ...] *)
Definition try_except_DoesntExist {O A} (body : M O A) (handler : M O A)
    : M O A :=
  fun o h =>
    match body o h with
    | (Raise (ElementDoesntExistError _), o', h') => handler o' h'
    | other => other
    end.

(** ** GitLabCommit.py *)

Module GitLabCommit.

Definition GL_STATE_TRANSLATION : list (Status * string) :=
  [(RUNNING, "running"); (CANCELED, "canceled"); (FAILED, "failed");
   (PENDING, "pending"); (SUCCESS, "success")].


#[export] Instance Status_eq_dec : EqDecision Status.
Proof. solve_decision. Defined.

(** [GL_STATE_TRANSLATION[s]] *)
Definition translate (s : Status) : string :=
  default "" (snd <$> find (fun kv => bool_decide (fst kv = s))
                           GL_STATE_TRANSLATION).


Record t : Type := mk {
  _token : string;
  _repository : string;
  _sha : option string;
  _branch : option string;
  _url : string;
  _data : option json
}.

#[export] Instance igitt : IGittObject t := {|
  hoster_of := GitLab;
  token_of := _token;
  url_of := _url;
  cache_of := _data;
  with_cache d o :=
    mk (_token o) (_repository o) (_sha o) (_branch o) (_url o) d
|}.

Definition truthy (s : option string) : bool :=
  match s with
  | Some s => truthy_str s
  | None => false
  end.

Section Methods.
Context (P : provider) (py_repr : json -> string)
        (quote_plus : string -> string).

(** [get_diff_index] of [IGitt/GitHub/GitHubCommit.py], which is not
    among the sources: the index of the line in the patch, or
    [None]. *)
Context (get_diff_index : json -> Z -> result (option Z)).

Definition __init__ (oauth_token repository : string)
    (sha branch : option string) : result t :=
  if truthy sha || truthy branch
  then Ok (mk oauth_token repository sha branch
              ("/projects/" +:+ quote_plus repository +:+
               "/repository/commits/" +:+
               (if truthy sha then default "" sha
                else default "" branch))
              None)
  else Raise AssertionError.

Definition sha : M t json :=
  self <- get_self ;;
  if truthy (_sha self) then ret (JStr (default "" (_sha self)))
  else d <- data P ;; lift (getitem d "id").



Definition set_status (status : CommitStatus) : M t unit :=
  self <- get_self ;;
  let data_ := [("state", JStr (translate (cs_status status)));
                ("target_url", cs_url status);
                ("description", cs_description status);
                ("name", cs_context status)] in
  s <- sha ;;
  let status_url := "/projects/" +:+ quote_plus (_repository self) +:+
                    "/statuses/" +:+ py_str py_repr s in
  GL.post P (_token self) status_url data_ ;;;
  ret tt.

(** The loop of [get_patch_for_file]. *)
Fixpoint find_patch (filename : string) (diff : list json)
    : result json :=
  match diff with
  | [] => Raise (ElementDoesntExistError "The file does not exist.")
  | patch :: rest =>
      match getitem patch "new_path" with
      | Raise e => Raise e
      | Ok new_path =>
      match getitem patch "old_path" with
      | Raise e => Raise e
      | Ok old_path =>
          if eq_str new_path filename || eq_str old_path filename
          then getitem patch "diff"
          else find_patch filename rest
      end end
  end.

Definition get_patch_for_file (filename : string) : M t json :=
  self <- get_self ;;
  diff <- GL.get P (_token self) (_url self +:+ "/diff") [] ;;
  items <- lift (iter diff) ;;
  lift (find_patch filename items).

Definition comment (message : string) (file : option string)
    (line : option Z) (mr_number : option Z) : M t unit :=
  self <- get_self ;;
  let data_ := [("note", JStr message); ("line_type", JStr "new")] in
  data_ <-
    match file, line with
    | Some f, Some l =>
        try_except_DoesntExist
          (patch <- get_patch_for_file f ;;
           index <- lift (get_diff_index patch l) ;;
           match index with
           | Some i =>
               if i =? 0 then ret data_
               else ret (dict_set "path" (JStr f)
                           (dict_set "line" (JNum i) data_))
           | None => ret data_
           end)
          (ret data_)
    | _, _ => ret data_
    end ;;
  data_ <-
    match assoc "line" data_ with
    | Some _ => ret data_
    | None =>
        let file_str := match file with
                        | None => ""
                        | Some f => ", file " +:+ f
                        end in
        let line_str := match line with
                        | None => ""
                        | Some l => ", line " +:+ str_of_Z l
                        end in
        s <- sha ;;
        match s, assoc "note" data_ with
        | JStr s, Some (JStr note) =>
            ret (dict_set "note"
                   (JStr ("Comment on " +:+ s +:+ file_str +:+ line_str
                          +:+ "." +:+ String "010" (String "010" "")
                          +:+ note))
                   data_)
        | _, _ => raise TypeError
        end
    end ;;
  match mr_number with
  | None =>
      GL.post P (_token self) (_url self +:+ "/comments") data_ ;;;
      ret tt
  | Some mr_iid =>
      note <- lift (getitem (JObj data_) "note") ;;
      let data_ := dict_set "body" note data_ in
      GL.post P (_token self)
              ("/projects/" +:+ quote_plus (_repository self) +:+
               "/merge_requests/" +:+ str_of_Z mr_iid +:+ "/notes")
              data_ ;;;
      ret tt
  end.
End Methods.
End GitLabCommit.

(** * A small service to run the methods against *)

Definition label (name : string) : json := JObj [("name", JStr name)].

Definition hook (id : Z) (url : string) : json :=
  JObj [("id", JNum id); ("config", JObj [("url", JStr url)])].

Definition commit_status (name state : string) : json :=
  JObj [("name", JStr name); ("status", JStr state);
        ("description", JStr ("about " +:+ name));
        ("target_url", JNull)].

Definition patch (path : string) : json :=
  JObj [("new_path", JStr path); ("old_path", JStr path);
        ("diff", JStr "@@ -1,2 +1,4 @@")].

(** A service that keeps no state: three labels, two hooks to the same
    URL and a third one, four commit statuses of which three share a name,
    a diff of one file, and an empty repository as far as the listing of
    commits goes. *)
Definition test_service : provider :=
  fun _ rq =>
    let url := rq_url rq in
    match rq_verb rq with
    | GET =>
        if has_substring "/labels" url
        then mkResponse 200 "" (JArr [label "a"; label "b"; label "c"])
        else if has_substring "/hooks" url
        then mkResponse 200 ""
               (JArr [hook 1 "http://some.url"; hook 2 "http://other.url";
                      hook 3 "http://some.url"])
        else if has_substring "/statuses" url
        then mkResponse 200 ""
               (JArr [commit_status "ci" "failed";
                      commit_status "ci" "success";
                      commit_status "lint" "pending";
                      commit_status "ci" "skipped"])
        else if has_substring "/diff" url
        then mkResponse 200 "" (JArr [patch "README.md"])
        else if has_substring "/commits" url
        then mkResponse 409 "Git Repository is empty." JNull
        else mkResponse 200 ""
               (JObj [("id", JNum 49558751);
                      ("full_name", JStr "gitmate-test-user/test");
                      ("sha", JStr "3fc4b86")])
    | POST => mkResponse 201 "" (JObj [("id", JNum 99)])
    | PUT => mkResponse 200 "" (JObj [])
    | DELETE => mkResponse 204 "" JNull
    end.

(** What [GitHubRepository(token, 'gitmate-test-user/test')] builds. *)
Definition test_repo : GitHubRepository.t :=
  GitHubRepository.mk "token" (Some "gitmate-test-user/test")
                      "/repos/gitmate-test-user/test" None.

Definition test_repr (v : json) : string := "[...]".

(** Enough of [quote_plus] for the names used here: the slash. *)
Fixpoint test_quote_plus (s : string) : string :=
  match s with
  | EmptyString => EmptyString
  | String "/" rest => "%2F" +:+ test_quote_plus rest
  | String c rest => String c (test_quote_plus rest)
  end.

Definition test_b64encode (s : string) : string := s.

Definition test_strftime (d : datetime) (fmt : string) : string :=
  str_of_Z (year d).

(** The line is part of the patch when it is at most 4. *)
Definition test_diff_index (p : json) (line : Z) : result (option Z) :=
  Ok (if line <=? 4 then Some line else None).

Definition test_issue_create (token : string) (repository : json)
    (title body : string) (h : history) : result entity * history :=
  (Ok (mkEntity GitHubIssue token [repository; JNum 1] None), h).

Definition test_commit : GitLabCommit.t :=
  GitLabCommit.mk "token" "gitmate-test-user/test" (Some "3fc4b86") None
                  "/projects/gitmate-test-user%2Ftest/repository/commits/3fc4b86"
                  None.


Definition day_one : datetime := mkDatetime 2017 1 1 0 0 0.
Definition day_two : datetime := mkDatetime 2017 6 1 0 0 0.

(** A service that remembers: it lists one hook for each registration that
    it has accepted. *)
Definition registered (h : history) : list json :=
  omap (fun e : exchange =>
          match rq_verb (fst e), assoc "config" (rq_data (fst e)) with
          | POST, Some config =>
              if ok_status (status (snd e))
              then Some (JObj [("id", JNum 1); ("config", config)])
              else None
          | _, _ => None
          end) h.

Definition hook_service : provider :=
  fun h rq =>
    match rq_verb rq with
    | GET => mkResponse 200 "" (JArr (registered h))
    | POST => mkResponse 201 "" (JObj (rq_data rq))
    | PUT | DELETE => mkResponse 204 "" JNull
    end.

(** * The requests that the theorems speak about *)

Module Requests.
Import GitHubRepository.

Definition list_labels (r : t) : request :=
  mkRequest GitHub GET (_token r) (_url r +:+ "/labels") [] [].

Definition post_label (r : t) (name color : string) : request :=
  mkRequest GitHub POST (_token r) (_url r +:+ "/labels") []
            [("name", JStr name); ("color", JStr (lstrip_hash color))].

Definition delete_label (r : t) (name : string) : request :=
  mkRequest GitHub DELETE (_token r) (_url r +:+ "/labels/" +:+ name)
            [] [].

Definition list_hooks (r : t) : request :=
  mkRequest GitHub GET (_token r) (_url r +:+ "/hooks") [] [].

Definition post_hook (r : t) (url : string) (secret : option string)
    (events : option (list WebhookEvents)) : request :=
  let config :=
    [("url", JStr url); ("content_type", JStr "json")] ++
    match secret with
    | Some s => if truthy_str s then [("secret", JStr s)] else []
    | None => []
    end in
  let reg_events :=
    match events with
    | Some (e :: es) =>
        map (fun e => JStr (GH_WEBHOOK_TRANSLATION e)) (e :: es)
    | _ => []
    end in
  mkRequest GitHub POST (_token r) (_url r +:+ "/hooks") []
    [("name", JStr "web"); ("active", JBool true);
     ("config", JObj config);
     ("events", JArr match reg_events with
                     | [] => [JStr "*"]
                     | _ => reg_events
                     end)].

Definition delete_hook (py_repr : json -> string) (r : t) (id : json)
    : request :=
  mkRequest GitHub DELETE (_token r)
            ((_url r +:+ "/hooks") +:+ "/" +:+ py_str py_repr id) [] [].

Definition list_commits (r : t) : request :=
  mkRequest GitHub GET (_token r) (_url r +:+ "/commits") [] [].

Definition fetch_data {O} `{IGittObject O} (o : O) : request :=
  mkRequest (hoster_of O) GET (token_of o) (url_of o) [] [].
End Requests.

(** What a request yields once the service has answered. *)
Definition outcome (rs : response) : result json :=
  if ok_status (status rs) then Ok (decoded rs)
  else Raise (transport_error rs).

(** The errors that the label operations raise by themselves. *)
Definition is_element_error (e : exn) : Prop :=
  match e with
  | ElementAlreadyExistsError _ | ElementDoesntExistError _ => True
  | _ => False
  end.

(** A loop whose body only inspects decoded values neither touches the
    object nor talks to the service. *)
Fixpoint mapR {A B} (f : A -> result B) (l : list A) : result (list B) :=
  match l with
  | [] => Ok []
  | x :: l' =>
      match f x with
      | Raise e => Raise e
      | Ok y =>
          match mapR f l' with
          | Raise e => Raise e
          | Ok ys => Ok (y :: ys)
          end
      end
  end.

Definition rbind {A B} (r : result A) (k : A -> result B) : result B :=
  match r with
  | Ok a => k a
  | Raise e => Raise e
  end.

(** What [get_labels] makes of the decoded listing. *)
Definition label_name (label : json) : result pykey :=
  rbind (getitem label "name") key_of.

Definition labels_of (resp : json) : result (gset pykey) :=
  rbind (iter resp) (fun items =>
  rbind (mapR label_name items) (fun names =>
  Ok (list_to_set names))).

(** What [hooks] makes of the decoded listing. *)
Definition hook_url (hook : json) : result json :=
  rbind (getitem hook "config") (fun config => dict_get config "url").

Definition hook_urls_of (resp : json) : result (gset pykey) :=
  rbind (iter resp) (fun items =>
  rbind (mapR (fun hook => rbind (hook_url hook) key_of) items)
        (fun results => Ok (list_to_set results ∖ {[KNone]}))).

(** A hook as the service lists it: an object with a [config] object and
    an [id]. *)
Definition well_formed_hook (hook : json) : Prop :=
  exists config id,
    getitem hook "config" = Ok (JObj config) /\ getitem hook "id" = Ok id.

(** The hook fires to the given URL. *)
Definition hook_matches (url : string) (hook : json) : bool :=
  match hook_url hook with
  | Ok u => eq_str u url
  | Raise _ => false
  end.

Definition hook_id (hook : json) : json :=
  match getitem hook "id" with
  | Ok id => id
  | Raise _ => JNull
  end.

(** Requests sent one after the other, as long as they succeed. *)
Fixpoint send_all (P : provider) (rqs : list request) (h : history)
    : result unit * history :=
  match rqs with
  | [] => (Ok tt, h)
  | rq :: rest =>
      match outcome (P h rq) with
      | Ok _ => send_all P rest (h ++ [(rq, P h rq)])
      | Raise e => (Raise e, h ++ [(rq, P h rq)])
      end
  end.

(** A computation that assigns no field of the object. *)
Definition keeps_self {O A} (m : M O A) : Prop :=
  forall o h r o' h', m o h = (r, o', h') -> o' = o.

(** Strings of decimal digits and the number they denote. *)
Definition all_digits (s : string) : bool :=
  forallb (fun c => bool_decide (is_Some (digit_of c)))
          (list_ascii_of_string s).

Definition digits_value (s : string) : Z :=
  fold_left (fun acc c => 10 * acc + default 0 (digit_of c))
            (list_ascii_of_string s) 0.

(** The requests of the content class. *)
Module ContentRequests.
Import GitHubContent.

Definition get_content (r : t) (ref : string) : request :=
  mkRequest GitHub GET (_token r) (_url r)
            [("path", JStr (_url r)); ("ref", JStr ref)] [].

Definition delete (r : t) (message : string) (branch : option string)
    (sha : json) : request :=
  mkRequest GitHub DELETE (_token r) (_url r)
            [("path", JStr (_url r)); ("message", JStr message);
             ("sha", sha); ("branch", JStr (default "master" branch))] [].

Definition update (b64encode : string -> string) (r : t)
    (message content : string) (branch : option string) (sha : json)
    : request :=
  mkRequest GitHub PUT (_token r) (_url r) []
            [("path", JStr (_url r)); ("message", JStr message);
             ("sha", sha); ("branch", JStr (default "master" branch));
             ("content", JStr (b64encode content))].

(** Send the request made from the ['sha'] of the snapshot [d]. *)
Definition send_with_sha (P : provider) (make : json -> request) (d : json)
    (r : t) (h : history) : result unit * t * history :=
  match getitem d "sha" with
  | Raise e => (Raise e, r, h)
  | Ok sha =>
      (rbind (outcome (P h (make sha))) (fun _ => Ok tt), r,
       h ++ [(make sha, P h (make sha))])
  end.

(** The same after the snapshot has been fetched, when there is none. *)
Definition fetch_then_send (P : provider) (make : json -> request) (r : t)
    (h : history) : result unit * t * history :=
  let rs := P h (Requests.fetch_data r) in
  let h1 := h ++ [(Requests.fetch_data r, rs)] in
  match outcome rs with
  | Raise e => (Raise e, r, h1)
  | Ok d => send_with_sha P make d (with_cache (Some d) r) h1
  end.
End ContentRequests.

(** A computation that hands every failure of the service on: what it
    adds to the history are its own exchanges, and an exchange answered
    with a status outside 2xx makes it raise the error of that answer. *)
Definition hands_on (r : result unit) (h h' : history) : Prop :=
  exists exchanges,
    h' = h ++ exchanges /\
    forall rq rs,
      (rq, rs) ∈ exchanges -> ok_status (status rs) = false ->
      r = Raise (transport_error rs).

Definition forget {A} (r : result A) : result unit :=
  match r with
  | Ok _ => Ok tt
  | Raise e => Raise e
  end.

Definition propagates {O A} (m : M O A) : Prop :=
  forall o h r o' h', m o h = (r, o', h') -> hands_on (forget r) h h'.

(** The same for a static method, which has no receiver. *)
Definition static_propagates {A} (f : history -> result A * history) : Prop :=
  forall h r h', f h = (r, h') -> hands_on (forget r) h h'.

(** The bounds of a search are in conflict: both ends of the creation
    window, or both ends of the update window, are given. *)
Definition conflicting (a : search_args) : bool :=
  supplied (created_after a) && supplied (created_before a)
  || supplied (updated_after a) && supplied (updated_before a).

Definition conflict_error : exn :=
  RuntimeError [JStr "Cannot process before and after date simultaneously"].

(** The requests of the GitLab commit. *)
Module CommitRequests.
Import GitLabCommit.


Definition diff (c : t) : request :=
  mkRequest GitLab GET (_token c) (_url c +:+ "/diff") [] [].

(** The context that the fallback puts before the message. *)
Definition fallback_note (sha file : string) (line : Z) (message : string)
    : string :=
  "Comment on " +:+ sha +:+ (", file " +:+ file) +:+
  (", line " +:+ str_of_Z line) +:+ "." +:+
  String "010" (String "010" "") +:+ message.

(** A comment on the commit, and one on the thread of a merge request. *)
Definition post_comment (quote_plus : string -> string) (c : t)
    (mr_number : option Z) (note : string) : request :=
  match mr_number with
  | None =>
      mkRequest GitLab POST (_token c) (_url c +:+ "/comments") []
                [("note", JStr note); ("line_type", JStr "new")]
  | Some mr_iid =>
      mkRequest GitLab POST (_token c)
                ("/projects/" +:+ quote_plus (_repository c) +:+
                 "/merge_requests/" +:+ str_of_Z mr_iid +:+ "/notes") []
                [("note", JStr note); ("line_type", JStr "new");
                 ("body", JStr note)]
  end.
End CommitRequests.




(** No patch of the diff is for the file. *)
Definition file_absent (file : string) (items : list json) : Prop :=
  Forall (fun patch =>
            exists new_path old_path,
              getitem patch "new_path" = Ok new_path /\
              getitem patch "old_path" = Ok old_path /\
              eq_str new_path file = false /\
              eq_str old_path file = false)
         items.

(** * Sanity checks of the helpers *)

Example str_of_Z_42 : str_of_Z 42 = "42".
Proof. reflexivity. Qed.

Example int_of_str_examples :
  int_of_str "42" = Some 42 /\ int_of_str " -1_000 " = Some (-1000) /\
  int_of_str "sils/something" = None /\ int_of_str "" = None /\
  int_of_str "1__0" = None /\ int_of_str "007" = Some 7.
Proof. repeat split; reflexivity. Qed.

(** A vertical tab and a no-break space are dropped, a unit separator is
    not; the digits of other scripts count, a minus sign other than the
    ASCII one does not. *)
Example int_of_str_code_points :
  int_of_str (String (ascii_of_nat 11) "42 ") = Some 42 /\
  int_of_str (String (ascii_of_nat 194) (String (ascii_of_nat 160) "42"))
    = Some 42 /\
  int_of_str (String (ascii_of_nat 31) "42") = None /\
  int_of_str "٤٢" = Some 42 /\ int_of_str "-４２" = Some (-42) /\
  int_of_str "−42" = None /\ int_of_str "4²" = None /\
  int_of_str "+ 42" = None /\ int_of_str "_42" = None /\
  int_of_str "42_" = None.
Proof. vm_compute. repeat split; reflexivity. Qed.

Example int_of_str_limit :
  let nines n := string_of_list_ascii (repeat "9"%char n) in
  int_of_str (nines int_max_str_digits) = Some (10 ^ 4300 - 1) /\
  int_of_str (nines (S int_max_str_digits)) = None.
Proof. vm_compute. split; reflexivity. Qed.

Example test_repo_built :
  GitHubRepository.__init__ "token" (RepoName "gitmate-test-user/test")
  = test_repo.
Proof. reflexivity. Qed.

Example replace_first_example :
  replace_first "github.com" "tok@github.com"
                "https://github.com/a/github.com.git"
  = "https://tok@github.com/a/github.com.git".
Proof. reflexivity. Qed.

(** * The monad *)

Section MonadFacts.
Context {O A B : Type}.

Lemma bind_lift (r : result A) (k : A -> M O B) o h :
  bind (lift r) k o h =
  match r with
  | Ok a => k a o h
  | Raise e => (Raise e, o, h)
  end.
Proof. destruct r; reflexivity. Qed.

Lemma _fetch_eq P (rq : request) (o : O) h :
  _fetch P rq o h = (outcome (P h rq), o, h ++ [(rq, P h rq)]).
Proof.
  unfold _fetch, outcome. destruct (ok_status _); reflexivity.
Qed.
End MonadFacts.

(** Rewriting under the binds of a method, one step at a time. *)
Ltac lift_step :=
  match goal with
  | |- context [@bind ?O ?A ?B (@lift _ _ ?r) ?k ?o ?h] =>
      rewrite (@bind_lift O A B r k o h)
  end.

Ltac fetch_step :=
  match goal with
  | |- context [@_fetch ?P ?O ?rq ?o ?h] =>
      rewrite (@_fetch_eq O P rq o h)
  end.

Lemma mapM_lift {O A B} (f : A -> M O B) (g : A -> result B) l o h :
  (forall x o h, f x o h = (g x, o, h)) ->
  mapM f l o h = (mapR g l, o, h).
Proof.
  intros Hf. revert o h. induction l as [|x l IH]; intros o h; simpl.
  - reflexivity.
  - unfold bind. rewrite Hf. destruct (g x) as [y|e]; [|reflexivity].
    rewrite IH. destruct (mapR g l); reflexivity.
Qed.

Lemma mapR_no_element_error {A B} (f : A -> result B) l e :
  (forall x e, f x = Raise e -> ~ is_element_error e) ->
  mapR f l = Raise e -> ~ is_element_error e.
Proof.
  intros Hf. induction l as [|x l IH]; simpl; [discriminate|].
  destruct (f x) as [y|e'] eqn:E.
  - destruct (mapR f l); [discriminate|]. intros [= ->]. auto.
  - intros [= ->]. eauto.
Qed.

Lemma rbind_no_element_error {A B} (r : result A) (k : A -> result B) e :
  (forall e, r = Raise e -> ~ is_element_error e) ->
  (forall a e, k a = Raise e -> ~ is_element_error e) ->
  rbind r k = Raise e -> ~ is_element_error e.
Proof.
  intros Hr Hk. destruct r as [a|e']; simpl.
  - apply Hk.
  - intros [= ->]. apply Hr. reflexivity.
Qed.

Lemma getitem_no_element_error v k e :
  getitem v k = Raise e -> ~ is_element_error e.
Proof.
  destruct v; simpl; try (intros [= <-]; auto).
  destruct (assoc k fields); intros [= <-]; auto.
Qed.

Lemma dict_get_no_element_error v k e :
  dict_get v k = Raise e -> ~ is_element_error e.
Proof. destruct v; simpl; intros [= <-]; auto. Qed.

Lemma key_of_no_element_error v e :
  key_of v = Raise e -> ~ is_element_error e.
Proof. destruct v; simpl; intros [= <-]; auto. Qed.

Lemma iter_no_element_error v e :
  iter v = Raise e -> ~ is_element_error e.
Proof. destruct v; simpl; intros [= <-]; auto. Qed.

Lemma outcome_no_element_error rs e :
  outcome rs = Raise e -> ~ is_element_error e.
Proof.
  unfold outcome. destruct (ok_status _); intros [= <-]; auto.
Qed.

Create HintDb element_error.

#[local] Hint Resolve getitem_no_element_error dict_get_no_element_error
  key_of_no_element_error iter_no_element_error outcome_no_element_error
  : element_error.

(** * GitHubRepository: labels *)

Section Labels.
Import GitHubRepository.
Context (P : provider).

Lemma get_labels_eq r h :
  get_labels P r h =
  (rbind (outcome (P h (Requests.list_labels r))) labels_of,
   r, h ++ [(Requests.list_labels r, P h (Requests.list_labels r))]).
Proof.
  unfold get_labels, GH.get. unfold bind at 1. unfold get_self.
  unfold bind at 1. rewrite _fetch_eq. fold (Requests.list_labels r).
  destruct (outcome _) as [resp|e]; [|reflexivity]. simpl.
  lift_step. unfold labels_of.
  destruct (iter resp) as [items|e]; [|reflexivity]. simpl.
  unfold bind at 1.
  rewrite (mapM_lift _ label_name).
  - destruct (mapR label_name items); reflexivity.
  - intros x o' h'. unfold label_name.
    cbv beta. lift_step. destruct (getitem x "name"); reflexivity.
Qed.

Lemma labels_of_no_element_error resp e :
  labels_of resp = Raise e -> ~ is_element_error e.
Proof.
  unfold labels_of. apply rbind_no_element_error.
  - eauto with element_error.
  - intros items e'. apply rbind_no_element_error.
    + intros e''. apply mapR_no_element_error.
      intros x e3. unfold label_name. apply rbind_no_element_error;
        eauto with element_error.
    + discriminate.
Qed.

Lemma create_label_eq r h name color :
  create_label P name color r h =
  match rbind (outcome (P h (Requests.list_labels r))) labels_of with
  | Raise e =>
      (Raise e, r,
       h ++ [(Requests.list_labels r, P h (Requests.list_labels r))])
  | Ok labels =>
      let h' :=
        h ++ [(Requests.list_labels r, P h (Requests.list_labels r))] in
      if decide (KStr name ∈ labels)
      then (Raise (ElementAlreadyExistsError (name +:+ " already exists.")),
            r, h')
      else
        let rq := Requests.post_label r name color in
        (rbind (outcome (P h' rq)) (fun _ => Ok tt),
         match outcome (P h' rq) with
         | Ok d => with_cache (Some d) r
         | Raise _ => r
         end,
         h' ++ [(rq, P h' rq)])
  end.
Proof.
  unfold create_label. unfold bind at 1. rewrite get_labels_eq.
  destruct (rbind _ labels_of) as [labels|e]; [|reflexivity].
  cbv zeta. destruct (decide _); [reflexivity|].
  unfold bind at 1. unfold get_self. unfold bind at 1. unfold GH.post.
  fetch_step. fold (Requests.post_label r name color).
  destruct (outcome _); reflexivity.
Qed.

Lemma delete_label_eq r h name :
  delete_label P name r h =
  match rbind (outcome (P h (Requests.list_labels r))) labels_of with
  | Raise e =>
      (Raise e, r,
       h ++ [(Requests.list_labels r, P h (Requests.list_labels r))])
  | Ok labels =>
      let h' :=
        h ++ [(Requests.list_labels r, P h (Requests.list_labels r))] in
      if decide (KStr name ∈ labels)
      then
        let rq := Requests.delete_label r name in
        (rbind (outcome (P h' rq)) (fun _ => Ok tt), r,
         h' ++ [(rq, P h' rq)])
      else (Raise (ElementDoesntExistError (name +:+ " doesnt exist.")),
            r, h')
  end.
Proof.
  unfold delete_label. unfold bind at 1. rewrite get_labels_eq.
  destruct (rbind _ labels_of) as [labels|e]; [|reflexivity].
  cbv zeta. destruct (decide _); [|reflexivity].
  unfold bind at 1. unfold get_self. unfold bind at 1. unfold GH.delete.
  fetch_step. fold (Requests.delete_label r name).
  destruct (outcome _); reflexivity.
Qed.

Lemma request_result_no_element_error rs e :
  rbind (outcome rs) (fun _ => Ok tt) = Raise e -> ~ is_element_error e.
Proof.
  apply rbind_no_element_error; [eauto with element_error|discriminate].
Qed.

(** C1. Whatever [get_labels] answers, it has issued one GET and left
    the object alone.  When it returns a set, [create_label] raises
    [ElementAlreadyExistsError] exactly when the name is in the set, and
    then in the state that the listing left, so that no POST was issued;
    [delete_label] raises [ElementDoesntExistError] exactly when the name
    is not in the set, and issues its DELETE only when the name is in
    it.  When the listing itself fails, both operations fail in the same
    way, which is neither of these two errors, without a further
    request. *)
Theorem label_precheck (r : t) h name color res r' h' :
  get_labels P r h = (res, r', h') ->
  r' = r /\
  h' = h ++ [(Requests.list_labels r, P h (Requests.list_labels r))] /\
  match res with
  | Ok labels =>
      (KStr name ∈ labels ->
         create_label P name color r h =
           (Raise (ElementAlreadyExistsError (name +:+ " already exists.")),
            r, h') /\
         exists out,
           delete_label P name r h =
             (out, r,
              h' ++ [(Requests.delete_label r name,
                      P h' (Requests.delete_label r name))]) /\
           forall e, out = Raise e -> ~ is_element_error e) /\
      (KStr name ∉ labels ->
         delete_label P name r h =
           (Raise (ElementDoesntExistError (name +:+ " doesnt exist.")),
            r, h') /\
         exists out r2,
           create_label P name color r h =
             (out, r2,
              h' ++ [(Requests.post_label r name color,
                      P h' (Requests.post_label r name color))]) /\
           forall e, out = Raise e -> ~ is_element_error e)
  | Raise e =>
      ~ is_element_error e /\
      create_label P name color r h = (Raise e, r, h') /\
      delete_label P name r h = (Raise e, r, h')
  end.
Proof.
  rewrite get_labels_eq. intros [= <- <- <-].
  split; [reflexivity|]. split; [reflexivity|].
  rewrite create_label_eq, delete_label_eq.
  destruct (rbind _ labels_of) as [labels|e] eqn:E.
  - cbv zeta. split; intros Hin.
    + rewrite !decide_True by exact Hin. split; [reflexivity|].
      eexists. split; [reflexivity|].
      apply request_result_no_element_error.
    + rewrite !decide_False by exact Hin. split; [reflexivity|].
      do 2 eexists. split; [reflexivity|].
      apply request_result_no_element_error.
  - split; [|split; reflexivity].
    revert E. apply rbind_no_element_error.
    + eauto with element_error.
    + apply labels_of_no_element_error.
Qed.
End Labels.

Lemma label_precheck_witness :
  let listing := (Requests.list_labels test_repo,
                  test_service [] (Requests.list_labels test_repo)) in
  GitHubRepository.get_labels test_service test_repo [] =
    (Ok (list_to_set [KStr "a"; KStr "b"; KStr "c"]), test_repo, [listing])
  /\
  GitHubRepository.create_label test_service "c" "#555555" test_repo [] =
    (Raise (ElementAlreadyExistsError "c already exists."),
     test_repo, [listing]).
Proof.
  intros listing.
  assert (H : GitHubRepository.get_labels test_service test_repo [] =
              (Ok (list_to_set [KStr "a"; KStr "b"; KStr "c"]),
               test_repo, [listing])) by (vm_compute; reflexivity).
  split; [exact H|].
  destruct (label_precheck test_service test_repo [] "c" "#555555" _ _ _ H)
    as (_ & _ & Hin & _).
  apply Hin. set_solver.
Defined.

(** * GitHubRepository: hooks *)

Section Hooks.
Import GitHubRepository.
Context (P : provider) (py_repr : json -> string).

Lemma hooks_eq r h :
  hooks P r h =
  (rbind (outcome (P h (Requests.list_hooks r))) hook_urls_of,
   r, h ++ [(Requests.list_hooks r, P h (Requests.list_hooks r))]).
Proof.
  unfold hooks, GH.get. unfold bind at 1. unfold get_self. cbv zeta.
  unfold bind at 1. fetch_step. fold (Requests.list_hooks r).
  destruct (outcome _) as [resp|e]; [|reflexivity]. simpl.
  lift_step. unfold hook_urls_of.
  destruct (iter resp) as [items|e]; [|reflexivity]. simpl.
  unfold bind at 1.
  rewrite (mapM_lift _ (fun hook => rbind (hook_url hook) key_of)).
  - destruct (mapR _ items); reflexivity.
  - intros x o' h'. cbv beta. unfold hook_url.
    lift_step. destruct (getitem x "config") as [config|e]; [|reflexivity].
    simpl. lift_step. destruct (dict_get config "url"); reflexivity.
Qed.

Lemma register_hook_present r h url secret events hs :
  rbind (outcome (P h (Requests.list_hooks r))) hook_urls_of = Ok hs ->
  KStr url ∈ hs ->
  register_hook P url secret events r h =
  (Ok tt, r, h ++ [(Requests.list_hooks r, P h (Requests.list_hooks r))]).
Proof.
  intros E Hin. unfold register_hook. unfold bind at 1.
  rewrite hooks_eq, E. rewrite decide_True by exact Hin. reflexivity.
Qed.

Lemma register_hook_eq r h url secret events :
  register_hook P url secret events r h =
  let h1 := h ++ [(Requests.list_hooks r, P h (Requests.list_hooks r))] in
  match rbind (outcome (P h (Requests.list_hooks r))) hook_urls_of with
  | Raise e => (Raise e, r, h1)
  | Ok hs =>
      if decide (KStr url ∈ hs) then (Ok tt, r, h1)
      else
        let rq := Requests.post_hook r url secret events in
        (rbind (outcome (P h1 rq)) (fun _ => Ok tt),
         match outcome (P h1 rq) with
         | Ok d => with_cache (Some d) r
         | Raise _ => r
         end,
         h1 ++ [(rq, P h1 rq)])
  end.
Proof.
  unfold register_hook. unfold bind at 1. rewrite hooks_eq. cbv zeta.
  destruct (rbind _ hook_urls_of) as [hs|e]; [|reflexivity].
  destruct (decide _); [reflexivity|].
  unfold bind at 1. unfold get_self. unfold bind at 1. unfold GH.post.
  fetch_step. unfold Requests.post_hook. cbv zeta.
  destruct (outcome _); reflexivity.
Qed.

Lemma delete_hook_loop r url items h :
  Forall well_formed_hook items ->
  forM_ items (fun hook =>
    config <- lift (getitem hook "config") ;;
    u <- lift (dict_get config "url") ;;
    if eq_str u url
    then
      id <- lift (getitem hook "id") ;;
      GH.delete P (_token r)
                ((_url r +:+ "/hooks") +:+ "/" +:+ py_str py_repr id) [] ;;;
      ret tt
    else ret tt) r h =
  let '(res, h2) :=
    send_all P (map (fun hook => Requests.delete_hook py_repr r (hook_id hook))
                    (filter (fun hook => hook_matches url hook = true) items))
             h in
  (res, r, h2).
Proof.
  intros Hwf. revert h. induction Hwf as [|hook items Hhook _ IH]; intros h.
  - reflexivity.
  - destruct Hhook as (config & id & Hconfig & Hid).
    cbn [forM_]. unfold bind at 1. cbv beta.
    lift_step. rewrite Hconfig. cbv beta iota. lift_step. cbn [dict_get].
    assert (Hm : hook_matches url hook
                 = eq_str (default JNull (assoc "url" config)) url).
    { unfold hook_matches, hook_url. rewrite Hconfig. reflexivity. }
    rewrite filter_cons. rewrite Hm.
    destruct (eq_str _ url) eqn:Heq.
    + rewrite decide_True by reflexivity. cbn [map send_all].
      lift_step. rewrite Hid. cbv beta iota. unfold bind at 1.
      unfold GH.delete.
      fetch_step.
      assert (Hhid : hook_id hook = id) by (unfold hook_id; by rewrite Hid).
      rewrite Hhid. fold (Requests.delete_hook py_repr r id).
      destruct (outcome _); [|reflexivity].
      unfold ret at 1. apply IH.
    + rewrite decide_False by discriminate. unfold ret at 1. apply IH.
Qed.

Lemma delete_hook_eq r h url resp items :
  outcome (P h (Requests.list_hooks r)) = Ok resp ->
  iter resp = Ok items ->
  Forall well_formed_hook items ->
  delete_hook P py_repr url r h =
  let '(res, h2) :=
    send_all P (map (fun hook => Requests.delete_hook py_repr r (hook_id hook))
                    (filter (fun hook => hook_matches url hook = true) items))
             (h ++ [(Requests.list_hooks r, P h (Requests.list_hooks r))]) in
  (res, r, h2).
Proof.
  intros Hresp Hiter Hwf.
  unfold delete_hook, GH.get. unfold bind at 1. unfold get_self. cbv zeta.
  unfold bind at 1. fetch_step. fold (Requests.list_hooks r).
  rewrite Hresp. lift_step. rewrite Hiter.
  apply delete_hook_loop. exact Hwf.
Qed.
End Hooks.

Lemma send_all_accepted P rqs h :
  (forall h' rq, rq ∈ rqs -> ok_status (status (P h' rq)) = true) ->
  exists exchanges,
    send_all P rqs h = (Ok tt, h ++ exchanges) /\ map fst exchanges = rqs.
Proof.
  revert h. induction rqs as [|rq rqs IH]; intros h Hok; simpl.
  - exists []. by rewrite app_nil_r.
  - unfold outcome. rewrite Hok by left.
    destruct (IH (h ++ [(rq, P h rq)])) as (ex & -> & <-).
    { intros h' rq' Hin. apply Hok. by right. }
    exists ((rq, P h rq) :: ex). by rewrite <- app_assoc.
Qed.

(** C3. Let the listing of the hooks succeed.  When the URL is among the
    hook URLs, [register_hook] returns after the listing, without a POST
    and without touching the object.  When the listed hooks are well
    formed, [delete_hook] sends one DELETE for each hook whose configured
    URL is the given one, in the order of the listing and as long as the
    service accepts them; so it sends nothing and returns normally when no
    hook has that URL, and it deletes every such hook when the service
    accepts the deletions. *)
Theorem hooks_idempotent P py_repr (r : GitHubRepository.t) h url secret
    events resp :
  outcome (P h (Requests.list_hooks r)) = Ok resp ->
  let h1 := h ++ [(Requests.list_hooks r, P h (Requests.list_hooks r))] in
  (forall hs,
     hook_urls_of resp = Ok hs -> KStr url ∈ hs ->
     GitHubRepository.hooks P r h = (Ok hs, r, h1) /\
     GitHubRepository.register_hook P url secret events r h = (Ok tt, r, h1))
  /\
  (forall items,
     iter resp = Ok items -> Forall well_formed_hook items ->
     let targets := filter (fun hook => hook_matches url hook = true) items in
     let deletions :=
       map (fun hook => Requests.delete_hook py_repr r (hook_id hook))
           targets in
     GitHubRepository.delete_hook P py_repr url r h =
       (let '(res, h2) := send_all P deletions h1 in (res, r, h2)) /\
     (targets = [] ->
      GitHubRepository.delete_hook P py_repr url r h = (Ok tt, r, h1)) /\
     ((forall h' rq, rq_verb rq = DELETE ->
                     ok_status (status (P h' rq)) = true) ->
      exists exchanges,
        GitHubRepository.delete_hook P py_repr url r h =
          (Ok tt, r, h1 ++ exchanges) /\
        map fst exchanges = deletions)).
Proof.
  intros Hresp h1. split.
  - intros hs Hhs Hin. split.
    + rewrite hooks_eq, Hresp. simpl. by rewrite Hhs.
    + apply register_hook_present with (hs := hs); [|exact Hin].
      rewrite Hresp. exact Hhs.
  - intros items Hiter Hwf targets deletions.
    pose proof (delete_hook_eq P py_repr r h url resp items Hresp Hiter Hwf)
      as Heq.
    subst deletions targets h1. split; [exact Heq|]. split.
    + intros Hnone. rewrite Heq. by rewrite Hnone.
    + intros Hok.
      edestruct (send_all_accepted P) as (ex & E & Hex);
        [|exists ex; split; [rewrite Heq, E; reflexivity|exact Hex]].
      intros h' rq Hin. apply Hok.
      apply list_elem_of_fmap in Hin as (hook & -> & _). reflexivity.
Qed.

Lemma hooks_idempotent_witness :
  let listing := (Requests.list_hooks test_repo,
                  test_service [] (Requests.list_hooks test_repo)) in
  outcome (test_service [] (Requests.list_hooks test_repo)) =
    Ok (JArr [hook 1 "http://some.url"; hook 2 "http://other.url";
              hook 3 "http://some.url"]) /\
  GitHubRepository.register_hook test_service "http://some.url" None None
                                 test_repo [] =
    (Ok tt, test_repo, [listing]) /\
  GitHubRepository.delete_hook test_service test_repr "http://no.url"
                               test_repo [] =
    (Ok tt, test_repo, [listing]).
Proof.
  intros listing.
  assert (H : outcome (test_service [] (Requests.list_hooks test_repo)) =
              Ok (JArr [hook 1 "http://some.url"; hook 2 "http://other.url";
                        hook 3 "http://some.url"])) by reflexivity.
  split; [exact H|].
  destruct (hooks_idempotent test_service test_repr test_repo []
              "http://some.url" None None _ H) as [Hreg _].
  destruct (hooks_idempotent test_service test_repr test_repo []
              "http://no.url" None None _ H) as [_ Hdel].
  split.
  - apply (Hreg (list_to_set [KStr "http://some.url"; KStr "http://other.url"])).
    + vm_compute. reflexivity.
    + set_solver.
  - apply (Hdel _ eq_refl).
    + repeat constructor; do 2 eexists; split; reflexivity.
    + reflexivity.
Defined.

Section HookService.
Import GitHubRepository.

(** On a service that lists what was registered with it, registering the
    same URL twice leaves one hook record: the second call stops after the
    listing. *)
Lemma register_twice_one_record (r : GitHubRepository.t) url secret events :
  exists r1 h1 h2,
    GitHubRepository.register_hook hook_service url secret events r [] =
      (Ok tt, r1, h1) /\
    GitHubRepository.register_hook hook_service url secret events r1 h1 =
      (Ok tt, r1, h2) /\
    length (registered h1) = 1%nat /\
    registered h2 = registered h1.
Proof.
  set (rq := Requests.post_hook r url secret events).
  set (listing := Requests.list_hooks r).
  set (h0 := [(listing, hook_service [] listing)]).
  exists (with_cache (Some (JObj (rq_data rq))) r),
         (h0 ++ [(rq, hook_service h0 rq)]).
  eexists. split; [|split].
  - rewrite register_hook_eq. cbn -[decide Requests.post_hook].
    rewrite decide_False by set_solver. reflexivity.
  - rewrite register_hook_eq. cbn -[decide].
    rewrite decide_True by set_solver. reflexivity.
  - split; reflexivity.
Qed.
End HookService.

(** * Computations that leave the object alone *)

Section KeepsSelf.
Context {O : Type}.

Lemma keeps_self_ret {A} (a : A) : keeps_self (O := O) (ret a).
Proof. intros o h r o' h' [= _ <- _]. reflexivity. Qed.

Lemma keeps_self_raise {A} e : keeps_self (O := O) (A := A) (raise e).
Proof. intros o h r o' h' [= _ <- _]. reflexivity. Qed.

Lemma keeps_self_lift {A} (x : result A) : keeps_self (O := O) (lift x).
Proof. intros o h r o' h' [= _ <- _]. reflexivity. Qed.

Lemma keeps_self_get_self : keeps_self (O := O) get_self.
Proof. intros o h r o' h' [= _ <- _]. reflexivity. Qed.

Lemma keeps_self_fetch P rq : keeps_self (O := O) (_fetch P rq).
Proof.
  intros o h r o' h'. rewrite _fetch_eq. intros [= _ <- _]. reflexivity.
Qed.

Lemma keeps_self_bind {A B} (m : M O A) (k : A -> M O B) :
  keeps_self m -> (forall a, keeps_self (k a)) -> keeps_self (bind m k).
Proof.
  intros Hm Hk o h r o' h'. unfold bind.
  destruct (m o h) as [[[a|e] o1] h1] eqn:E.
  - intros E'. apply Hk in E'. apply Hm in E. congruence.
  - intros [= _ <- _]. eapply Hm, E.
Qed.

Lemma keeps_self_forM_ {A} (l : list A) (f : A -> M O unit) :
  (forall x, keeps_self (f x)) -> keeps_self (forM_ l f).
Proof.
  intros Hf. induction l as [|x l IH]; simpl.
  - apply keeps_self_ret.
  - apply keeps_self_bind; [apply Hf|intros _; exact IH].
Qed.

Lemma keeps_self_mapM {A B} (l : list A) (f : A -> M O B) :
  (forall x, keeps_self (f x)) -> keeps_self (mapM f l).
Proof.
  intros Hf. induction l as [|x l IH]; simpl.
  - apply keeps_self_ret.
  - apply keeps_self_bind; [apply Hf|intros y].
    apply keeps_self_bind; [exact IH|intros ys; apply keeps_self_ret].
Qed.
End KeepsSelf.

Ltac keeps_self :=
  repeat first
    [ apply keeps_self_ret | apply keeps_self_raise | apply keeps_self_lift
    | apply keeps_self_get_self | apply keeps_self_fetch
    | apply keeps_self_bind | apply keeps_self_forM_ | apply keeps_self_mapM
    | progress intros
    | match goal with
      | |- keeps_self (if ?b then _ else _) => destruct b
      | |- keeps_self (match ?x with _ => _ end) => destruct x
      end ].

Section DataAfterPost.
Import GitHubRepository.
Context (P : provider) (py_repr : json -> string).

Lemma delete_hook_keeps_self url : keeps_self (delete_hook P py_repr url).
Proof. unfold delete_hook, GH.get, GH.delete. keeps_self. Qed.

Lemma identifier_cached r h d :
  _data r = Some d -> identifier P r h = (getitem d "id", r, h).
Proof.
  intros Hd. unfold identifier, data, bind, get_self, ret, lift.
  cbn [cache_of igitt]. rewrite Hd. destruct (getitem d "id"); reflexivity.
Qed.

(** C8. [create_label] returns normally only after its POST, with the
    decoded body of the answer as the cached snapshot, and it does return
    so when the name is new and the service accepts the POST.  The same
    holds of [register_hook] for a URL that is not among the hooks.  For a
    URL that is among them [register_hook] returns normally as well, but
    after the listing alone: without a POST, and with the object and its
    snapshot as they were.  On the object that an overwriting call leaves,
    [identifier] looks the key up in the answer to the POST without a
    request.  [delete_label] and [delete_hook] leave the object, and so
    the snapshot, as it was, whatever their outcome. *)
Theorem data_after_post (r : t) h :
  (forall name color,
     let h1 :=
       h ++ [(Requests.list_labels r, P h (Requests.list_labels r))] in
     let rq := Requests.post_label r name color in
     let rs := P h1 rq in
     let r1 := with_cache (Some (decoded rs)) r in
     (forall r' h',
        create_label P name color r h = (Ok tt, r', h') ->
        r' = r1 /\ h' = h1 ++ [(rq, rs)]) /\
     (forall labels,
        get_labels P r h = (Ok labels, r, h1) -> KStr name ∉ labels ->
        ok_status (status rs) = true ->
        create_label P name color r h = (Ok tt, r1, h1 ++ [(rq, rs)])) /\
     rq_verb rq = POST /\
     _data r1 = Some (decoded rs) /\
     (forall h',
        identifier P r1 h' = (getitem (decoded rs) "id", r1, h'))) /\
  (forall url secret events,
     let h1 :=
       h ++ [(Requests.list_hooks r, P h (Requests.list_hooks r))] in
     let rq := Requests.post_hook r url secret events in
     let rs := P h1 rq in
     let r1 := with_cache (Some (decoded rs)) r in
     (forall hs,
        hooks P r h = (Ok hs, r, h1) ->
        (KStr url ∈ hs ->
         register_hook P url secret events r h = (Ok tt, r, h1)) /\
        (KStr url ∉ hs -> ok_status (status rs) = true ->
         register_hook P url secret events r h =
           (Ok tt, r1, h1 ++ [(rq, rs)])) /\
        (forall r' h',
           register_hook P url secret events r h = (Ok tt, r', h') ->
           if decide (KStr url ∈ hs) then r' = r /\ h' = h1
           else r' = r1 /\ h' = h1 ++ [(rq, rs)])) /\
     rq_verb rq = POST /\
     _data r1 = Some (decoded rs) /\
     (forall h',
        identifier P r1 h' = (getitem (decoded rs) "id", r1, h'))) /\
  (forall name res r' h',
     delete_label P name r h = (res, r', h') -> r' = r) /\
  (forall url res r' h',
     delete_hook P py_repr url r h = (res, r', h') -> r' = r).
Proof.
  split; [|split; [|split]].
  - intros name color h1 rq rs r1. split; [|split; [|split; [|split]]].
    + intros r' h'. rewrite create_label_eq.
      destruct (rbind _ labels_of) as [labels|e]; [|discriminate].
      cbv zeta. destruct (decide _); [discriminate|].
      fold h1 rq rs. unfold outcome.
      destruct (ok_status _); [|discriminate].
      by intros [= <- <-].
    + intros labels. rewrite get_labels_eq. intros [= Hlabels] Hnew Hok.
      rewrite create_label_eq, Hlabels. cbv zeta.
      rewrite decide_False by exact Hnew. fold h1 rq rs.
      unfold outcome. by rewrite Hok.
    + reflexivity.
    + reflexivity.
    + intros h'. by apply identifier_cached.
  - intros url secret events h1 rq rs r1. split; [|split; [|split]].
    + intros hs. rewrite hooks_eq. intros [= Hhs].
      rewrite register_hook_eq, Hhs. cbv zeta. fold h1 rq rs.
      split; [|split].
      * intros Hin. by rewrite decide_True by exact Hin.
      * intros Hnew Hok. rewrite decide_False by exact Hnew.
        unfold outcome. by rewrite Hok.
      * intros r' h'. destruct (decide _).
        -- by intros [= <- <-].
        -- unfold outcome. destruct (ok_status _); [|discriminate].
           by intros [= <- <-].
    + reflexivity.
    + reflexivity.
    + intros h'. by apply identifier_cached.
  - intros name res r' h'. rewrite delete_label_eq.
    destruct (rbind _ labels_of) as [labels|e]; [|congruence].
    cbv zeta. destruct (decide _); congruence.
  - intros url res r' h' H. eapply delete_hook_keeps_self, H.
Qed.
End DataAfterPost.

Section DataAfterPostRuns.
Import GitHubRepository.

Lemma data_after_post_witness :
  let created := with_cache (Some (JObj [("id", JNum 99)])) test_repo in
  let labels := (Requests.list_labels test_repo,
                 test_service [] (Requests.list_labels test_repo)) in
  let hooks := (Requests.list_hooks test_repo,
                test_service [] (Requests.list_hooks test_repo)) in
  let post_label := Requests.post_label test_repo "d" "#555555" in
  let post_hook := Requests.post_hook test_repo "http://new.url" None None in
  GitHubRepository.get_labels test_service test_repo [] =
    (Ok (list_to_set [KStr "a"; KStr "b"; KStr "c"]), test_repo, [labels]) /\
  GitHubRepository.hooks test_service test_repo [] =
    (Ok (list_to_set [KStr "http://some.url"; KStr "http://other.url"]),
     test_repo, [hooks]) /\
  GitHubRepository.create_label test_service "d" "#555555" test_repo [] =
    (Ok tt, created,
     [labels; (post_label, test_service [labels] post_label)]) /\
  GitHubRepository.register_hook test_service "http://new.url" None None
                                 test_repo [] =
    (Ok tt, created, [hooks; (post_hook, test_service [hooks] post_hook)]) /\
  GitHubRepository.register_hook test_service "http://some.url" None None
                                 test_repo [] =
    (Ok tt, test_repo, [hooks]) /\
  GitHubRepository.identifier test_service created [] =
    (Ok (JNum 99), created, []).
Proof.
  intros created labels hooks post_label post_hook.
  assert (Hlabels :
            GitHubRepository.get_labels test_service test_repo [] =
            (Ok (list_to_set [KStr "a"; KStr "b"; KStr "c"]), test_repo,
             [labels])) by (vm_compute; reflexivity).
  assert (Hhooks :
            GitHubRepository.hooks test_service test_repo [] =
            (Ok (list_to_set [KStr "http://some.url";
                              KStr "http://other.url"]),
             test_repo, [hooks])) by (vm_compute; reflexivity).
  destruct (data_after_post test_service test_repr test_repo [])
    as (Hcreate & Hregister & _).
  destruct (Hcreate "d" "#555555") as (_ & Hdoes & _ & _ & Hid).
  destruct (Hregister "http://new.url" None None) as (Hnew & _).
  destruct (Hregister "http://some.url" None None) as (Hold & _).
  destruct (Hnew _ Hhooks) as (_ & Hposts & _).
  destruct (Hold _ Hhooks) as (Hreturns & _).
  split; [exact Hlabels|]. split; [exact Hhooks|].
  split; [|split; [|split]].
  - apply (Hdoes _ Hlabels); [set_solver|reflexivity].
  - apply Hposts; [set_solver|reflexivity].
  - apply Hreturns. set_solver.
  - apply Hid.
Defined.

(** As the sentence of the specification goes, every call of
    [register_hook] that returns normally has overwritten the snapshot
    with the answer to a POST.  Here the URL is hooked already: the call
    returns normally after a single GET, and the snapshot is still the
    repository resource. *)
Lemma register_hook_keeps_snapshot_of_hooked_url :
  let snapshot := JObj [("id", JNum 49558751);
                        ("full_name", JStr "gitmate-test-user/test")] in
  let r := with_cache (Some snapshot) test_repo in
  let listing := (Requests.list_hooks r,
                  test_service [] (Requests.list_hooks r)) in
  exists r' h',
    GitHubRepository.register_hook test_service "http://some.url" None None
                                   r [] = (Ok tt, r', h') /\
    h' = [listing] /\ rq_verb (fst listing) = GET /\
    Forall (fun e : exchange => rq_verb (fst e) <> POST) h' /\
    GitHubRepository._data r' = Some snapshot /\
    GitHubRepository.identifier test_service r' h' =
      (Ok (JNum 49558751), r', h').
Proof.
  intros snapshot r listing. exists r, [listing].
  split; [vm_compute; reflexivity|]. split; [reflexivity|].
  split; [reflexivity|]. split; [|split; reflexivity].
  repeat constructor. discriminate.
Qed.
End DataAfterPostRuns.

(** * Reading the repository argument as an integer *)

Lemma digit_not_space c d : digit_of c = Some d -> is_space c = false.
Proof.
  destruct c as [[] [] [] [] [] [] [] []]; vm_compute; congruence.
Qed.

Lemma digit_not_sign c d :
  digit_of c = Some d -> Ascii.eqb c "-" = false /\ Ascii.eqb c "+" = false.
Proof.
  destruct c as [[] [] [] [] [] [] [] []]; vm_compute; intros; split;
    congruence.
Qed.

Lemma digit_code c d : digit_of c = Some d -> code c < 127.
Proof.
  destruct c as [[] [] [] [] [] [] [] []]; vm_compute; congruence.
Qed.

Lemma code_range c : 0 <= code c < 256.
Proof. destruct c as [[] [] [] [] [] [] [] []]; vm_compute; split; congruence.
Qed.

Lemma decode_utf8_one c rest :
  code c < 128 -> decode_utf8 (c :: rest) = cons (code c) <$> decode_utf8 rest.
Proof.
  intros Hc. cbn [decode_utf8]. cbv zeta.
  by rewrite (proj2 (Z.ltb_lt _ _) Hc).
Qed.

Lemma transform_char_code c : code c < 127 -> transform_char (code c) = Some c.
Proof.
  intros Hc. unfold transform_char. rewrite (proj2 (Z.ltb_lt _ _) Hc).
  unfold code. by rewrite Nat2Z.id, ascii_nat_embedding.
Qed.

(** A string of ASCII digits goes through the first two steps as it is. *)
Lemma decode_transform_digits l :
  Forall (fun c => is_Some (digit_of c)) l ->
  exists cps, decode_utf8 l = Some cps /\ transform cps = Some l.
Proof.
  induction 1 as [|c rest [d Hd] _ (cps & Hcps & Hl)].
  - by exists [].
  - apply digit_code in Hd. exists (code c :: cps). split.
    + rewrite decode_utf8_one by lia. by rewrite Hcps.
    + cbn [transform]. rewrite transform_char_code by exact Hd.
      by rewrite Hl.
Qed.

Lemma lstrip_space_digits l :
  Forall (fun c => is_Some (digit_of c)) l -> lstrip_space l = l.
Proof.
  intros [|c rest [d Hd] _]; [reflexivity|]. simpl.
  by rewrite (digit_not_space c d).
Qed.

Lemma strip_space_digits l :
  Forall (fun c => is_Some (digit_of c)) l -> strip_space l = l.
Proof.
  intros Hl. unfold strip_space. rewrite (lstrip_space_digits l Hl).
  rewrite lstrip_space_digits by (by apply Forall_rev).
  apply rev_involutive.
Qed.

Lemma parse_digits_digits l acc b :
  Forall (fun c => is_Some (digit_of c)) l ->
  (l <> [] \/ b = true) ->
  parse_digits acc b l =
  Some (fold_left (fun acc c => 10 * acc + default 0 (digit_of c)) l acc).
Proof.
  intros Hl. revert acc b.
  induction Hl as [|c rest [d Hd] _ IH]; intros acc b Hne; simpl.
  - destruct Hne as [Hne| ->]; [congruence|reflexivity].
  - rewrite Hd. simpl. apply IH. by right.
Qed.

Lemma count_digits_all l :
  Forall (fun c => is_Some (digit_of c)) l -> count_digits l = length l.
Proof.
  intros Hl. unfold count_digits. induction Hl as [|c rest Hc _ IH].
  - reflexivity.
  - rewrite filter_cons_True by exact Hc. simpl. by rewrite IH.
Qed.

Lemma all_digits_Forall s :
  all_digits s = true ->
  Forall (fun c => is_Some (digit_of c)) (list_ascii_of_string s).
Proof.
  unfold all_digits. rewrite forallb_forall. intros Hall.
  apply Forall_forall. intros c Hc. apply list_elem_of_In in Hc.
  apply Hall in Hc. by apply bool_decide_eq_true in Hc.
Qed.

Lemma length_list_ascii_of_string s :
  length (list_ascii_of_string s) = String.length s.
Proof. induction s as [|c s IH]; simpl; [reflexivity|by rewrite IH]. Qed.

(** What [int] makes of a string of ASCII digits: nothing of the empty
    one, nothing of one that is longer than the limit, and the number it
    denotes otherwise. *)
Lemma int_of_str_all_digits s :
  all_digits s = true ->
  int_of_str s =
  if decide (s = "" \/ (int_max_str_digits < String.length s)%nat)
  then None else Some (digits_value s).
Proof.
  intros Hall. apply all_digits_Forall in Hall.
  unfold int_of_str, digits_value.
  destruct (decode_transform_digits _ Hall) as (cps & -> & ->).
  unfold PyLong_FromString. rewrite strip_space_digits by exact Hall.
  rewrite <- length_list_ascii_of_string.
  destruct (list_ascii_of_string s) as [|c rest] eqn:E.
  - rewrite decide_True; [reflexivity|].
    left. destruct s; [reflexivity|discriminate].
  - pose proof (Forall_inv Hall) as [d Hd].
    destruct (digit_not_sign c d Hd) as [-> ->].
    unfold read_digits. rewrite count_digits_all by exact Hall.
    destruct (Nat.ltb_spec int_max_str_digits (length (c :: rest)))
      as [Hlong|Hshort].
    + rewrite decide_True; [reflexivity|by right].
    + rewrite decide_False.
      * apply parse_digits_digits; [exact Hall|by left].
      * intros [->|Hlong]; [discriminate|lia].
Qed.

Lemma int_of_str_digits s :
  s <> "" -> all_digits s = true ->
  (String.length s <= int_max_str_digits)%nat ->
  int_of_str s = Some (digits_value s).
Proof.
  intros Hne Hall Hlen. rewrite int_of_str_all_digits by exact Hall.
  rewrite decide_False; [reflexivity|]. intros [?|?]; [done|lia].
Qed.

Lemma lstrip_space_keeps x l :
  is_space x = false -> x ∈ l -> x ∈ lstrip_space l.
Proof.
  intros Hx. induction l as [|c rest IH]; simpl; [done|].
  intros Hin. destruct (is_space c) eqn:Hc; [|exact Hin].
  apply IH. apply elem_of_cons in Hin as [->|Hin]; [congruence|done].
Qed.

Lemma strip_space_keeps x l :
  is_space x = false -> x ∈ l -> x ∈ strip_space l.
Proof.
  intros Hx Hin. unfold strip_space.
  apply list_elem_of_In, in_rev. rewrite rev_involutive.
  apply list_elem_of_In, lstrip_space_keeps; [exact Hx|].
  apply list_elem_of_In, in_rev. rewrite rev_involutive.
  by apply list_elem_of_In, lstrip_space_keeps.
Qed.

Lemma parse_digits_slash l acc b :
  "/"%char ∈ l -> parse_digits acc b l = None.
Proof.
  revert acc b. induction l as [|c rest IH]; intros acc b Hin.
  - by apply elem_of_nil in Hin.
  - apply elem_of_cons in Hin as [<-|Hin]; [reflexivity|].
    simpl. destruct (digit_of c); [by apply IH|].
    destruct (_ && _); [by apply IH|reflexivity].
Qed.

Lemma read_digits_slash l : "/"%char ∈ l -> read_digits l = None.
Proof.
  intros Hin. unfold read_digits. destruct (_ <? _)%nat; [reflexivity|].
  by apply parse_digits_slash.
Qed.

Lemma PyLong_FromString_slash l :
  "/"%char ∈ l -> PyLong_FromString l = None.
Proof.
  intros Hin. apply (strip_space_keeps "/"%char _ eq_refl) in Hin.
  unfold PyLong_FromString.
  destruct (strip_space _) as [|c rest]; [reflexivity|].
  destruct (Ascii.eqb c "-") eqn:Hminus.
  - apply Ascii.eqb_eq in Hminus as ->.
    apply elem_of_cons in Hin as [Heq|Hin]; [discriminate|].
    by rewrite read_digits_slash.
  - destruct (Ascii.eqb c "+") eqn:Hplus.
    + apply Ascii.eqb_eq in Hplus as ->.
      apply elem_of_cons in Hin as [Heq|Hin]; [discriminate|].
      by rewrite read_digits_slash.
    + by apply read_digits_slash.
Qed.

Lemma continuation_code c n : continuation c = Some n -> 128 <= code c.
Proof.
  unfold continuation. cbv zeta.
  destruct (128 <=? code c) eqn:E; [|discriminate]. intros _. lia.
Qed.

Lemma slash_code c : 128 <= code c -> c <> "/"%char.
Proof. intros Hc ->. vm_compute in Hc. by apply Hc. Qed.

(** The slash is one byte of the encoding only as the code point 47. *)
Lemma decode_utf8_slash n : forall l cps,
  (length l <= n)%nat ->
  decode_utf8 l = Some cps -> "/"%char ∈ l -> 47 ∈ cps.
Proof.
  induction n as [|n IH]; intros l cps Hn.
  - destruct l; [|simpl in Hn; lia]. intros _ Hin.
    by apply elem_of_nil in Hin.
  - destruct l as [|b1 rest1].
    { intros _ Hin. by apply elem_of_nil in Hin. }
    cbn [decode_utf8]. cbv zeta. simpl in Hn.
    destruct (Z.ltb_spec (code b1) 128) as [H1|H1].
    { destruct (decode_utf8 rest1) as [cps1|] eqn:E1; [|discriminate].
      intros [= <-] Hin. apply elem_of_cons in Hin as [<-|Hin].
      - by left.
      - right. apply (IH rest1); [lia|exact E1|exact Hin]. }
    destruct (code b1 <? 192); [discriminate|].
    pose proof (slash_code b1 H1) as Hb1.
    destruct (code b1 <? 224).
    { destruct rest1 as [|b2 rest2]; [discriminate|].
      destruct (continuation b2) as [n2|] eqn:E2; [|discriminate].
      apply continuation_code, slash_code in E2.
      destruct (scalar _ _) as [cp|]; [|discriminate].
      destruct (decode_utf8 rest2) as [cps2|] eqn:Er; [|discriminate].
      intros [= <-] Hin. simpl in Hn.
      apply elem_of_cons in Hin as [?|Hin]; [congruence|].
      apply elem_of_cons in Hin as [?|Hin]; [congruence|].
      right. apply (IH rest2); [lia|exact Er|exact Hin]. }
    destruct (code b1 <? 240).
    { destruct rest1 as [|b2 [|b3 rest3]]; [discriminate..|].
      destruct (continuation b2) as [n2|] eqn:E2; [|discriminate].
      destruct (continuation b3) as [n3|] eqn:E3; [|discriminate].
      apply continuation_code, slash_code in E2, E3.
      destruct (scalar _ _) as [cp|]; [|discriminate].
      destruct (decode_utf8 rest3) as [cps3|] eqn:Er; [|discriminate].
      intros [= <-] Hin. simpl in Hn.
      apply elem_of_cons in Hin as [?|Hin]; [congruence|].
      apply elem_of_cons in Hin as [?|Hin]; [congruence|].
      apply elem_of_cons in Hin as [?|Hin]; [congruence|].
      right. apply (IH rest3); [lia|exact Er|exact Hin]. }
    destruct (code b1 <? 248); [|discriminate].
    destruct rest1 as [|b2 [|b3 [|b4 rest4]]]; [discriminate..|].
    destruct (continuation b2) as [n2|] eqn:E2; [|discriminate].
    destruct (continuation b3) as [n3|] eqn:E3; [|discriminate].
    destruct (continuation b4) as [n4|] eqn:E4; [|discriminate].
    apply continuation_code, slash_code in E2, E3, E4.
    destruct (scalar _ _) as [cp|]; [|discriminate].
    destruct (decode_utf8 rest4) as [cps4|] eqn:Er; [|discriminate].
    intros [= <-] Hin. simpl in Hn.
    apply elem_of_cons in Hin as [?|Hin]; [congruence|].
    apply elem_of_cons in Hin as [?|Hin]; [congruence|].
    apply elem_of_cons in Hin as [?|Hin]; [congruence|].
    apply elem_of_cons in Hin as [?|Hin]; [congruence|].
    right. apply (IH rest4); [lia|exact Er|exact Hin].
Qed.

Lemma transform_slash cps l :
  transform cps = Some l -> 47 ∈ cps -> "/"%char ∈ l.
Proof.
  revert l. induction cps as [|cp rest IH]; intros l.
  - intros _ Hin. by apply elem_of_nil in Hin.
  - cbn [transform].
    destruct (transform_char cp) as [c|] eqn:Ec; [|discriminate].
    destruct (transform rest) as [l'|]; [|discriminate].
    intros [= <-] Hin. apply elem_of_cons in Hin as [<-|Hin].
    + injection Ec as <-. by left.
    + right. by apply IH.
Qed.

Lemma slash_in_name owner name :
  "/"%char ∈ list_ascii_of_string (owner +:+ "/" +:+ name).
Proof.
  induction owner as [|c owner IH]; simpl.
  - by left.
  - by right.
Qed.

Lemma int_of_str_slash s :
  "/"%char ∈ list_ascii_of_string s -> int_of_str s = None.
Proof.
  intros Hin. unfold int_of_str.
  destruct (decode_utf8 _) as [cps|] eqn:Ed; [|reflexivity].
  destruct (transform cps) as [l|] eqn:Et; [|reflexivity].
  apply PyLong_FromString_slash, (transform_slash cps); [exact Et|].
  by apply (decode_utf8_slash _ _ cps (Nat.le_refl _) Ed).
Qed.

(** * The lazy snapshot *)

Lemma data_eq P {O} `{IGittObject O} (o : O) h :
  data P o h =
  match cache_of o with
  | Some d => (Ok d, o, h)
  | None =>
      let rs := P h (Requests.fetch_data o) in
      (outcome rs,
       match outcome rs with
       | Ok d => with_cache (Some d) o
       | Raise _ => o
       end,
       h ++ [(Requests.fetch_data o, rs)])
  end.
Proof.
  unfold data. unfold bind at 1. unfold get_self.
  destruct (cache_of o); [reflexivity|].
  unfold bind at 1. fetch_step. fold (Requests.fetch_data o).
  cbv zeta. destruct (outcome _); reflexivity.
Qed.

(** * GitHubRepository: the two ways to address a repository *)

Section Addressing.
Import GitHubRepository.
Context (P : provider).

Lemma full_name_named r h s :
  _repository r = Some s -> s <> "" -> full_name P r h = (Ok (JStr s), r, h).
Proof.
  intros Hr Hs. unfold full_name. unfold bind at 1. unfold get_self.
  rewrite Hr. destruct s; [congruence|reflexivity].
Qed.

Lemma full_name_numeric r h :
  _repository r = None ->
  full_name P r h =
  match _data r with
  | Some d => (getitem d "full_name", r, h)
  | None =>
      let rs := P h (Requests.fetch_data r) in
      (rbind (outcome rs) (fun d => getitem d "full_name"),
       match outcome rs with
       | Ok d => with_cache (Some d) r
       | Raise _ => r
       end,
       h ++ [(Requests.fetch_data r, rs)])
  end.
Proof.
  intros Hr. unfold full_name. unfold bind at 1. unfold get_self.
  rewrite Hr. unfold bind at 1. rewrite data_eq. cbn [cache_of igitt].
  destruct (_data r) as [d|].
  - unfold lift. destruct (getitem d "full_name"); reflexivity.
  - cbv zeta. destruct (outcome _) as [d|e]; [|reflexivity].
    unfold lift. simpl. destruct (getitem d "full_name"); reflexivity.
Qed.

(** C7. A number as the repository argument gives the flat URL and no
    stored name, and [full_name] on the fresh object first fetches the
    repository data from that URL and reads the name from it.  A string
    [owner/name] gives the nested URL, and [full_name] returns that string
    with no exchange and no change of the object. *)
Theorem addressing_forms token h :
  (forall n,
     let r := __init__ token (RepoNumber n) in
     let rs := P h (Requests.fetch_data r) in
     _url r = "/repositories/" +:+ str_of_Z n /\
     _repository r = None /\
     Requests.fetch_data r =
       mkRequest GitHub GET token ("/repositories/" +:+ str_of_Z n) [] [] /\
     full_name P r h =
       (rbind (outcome rs) (fun d => getitem d "full_name"),
        match outcome rs with
        | Ok d => with_cache (Some d) r
        | Raise _ => r
        end,
        h ++ [(Requests.fetch_data r, rs)])) /\
  (forall owner name,
     let s := owner +:+ "/" +:+ name in
     let r := __init__ token (RepoName s) in
     _url r = "/repos/" +:+ s /\
     _repository r = Some s /\
     full_name P r h = (Ok (JStr s), r, h)).
Proof.
  split.
  - intros n r rs. repeat split. by rewrite full_name_numeric.
  - intros owner name s r.
    assert (Hr : r = mk token (Some s) ("/repos/" +:+ s) None).
    { subst r. unfold __init__.
      by rewrite (int_of_str_slash s (slash_in_name owner name)). }
    rewrite Hr. repeat split. apply full_name_named; [reflexivity|].
    subst s. destruct owner; discriminate.
Qed.

(** C9. A string of digits that [int] reads as a number (which it does
    unless the string is empty or has more digits than the interpreter
    accepts) is read as the number it denotes: the object is the one that
    the number itself gives, with no stored name and the flat URL, which
    does not start with the nested prefix; [full_name] is then read from
    the snapshot, which is fetched from the flat URL when the object has
    none. *)
Theorem digit_string_is_numeric token s n h :
  all_digits s = true -> int_of_str s = Some n ->
  let r := __init__ token (RepoName s) in
  let rs := P h (Requests.fetch_data r) in
  n = digits_value s /\
  r = __init__ token (RepoNumber n) /\
  _repository r = None /\
  _url r = "/repositories/" +:+ str_of_Z n /\
  String.prefix "/repos/" (_url r) = false /\
  full_name P r h =
    (rbind (outcome rs) (fun d => getitem d "full_name"),
     match outcome rs with
     | Ok d => with_cache (Some d) r
     | Raise _ => r
     end,
     h ++ [(Requests.fetch_data r, rs)]) /\
  (forall d,
     full_name P (with_cache (Some d) r) h =
       (getitem d "full_name", with_cache (Some d) r, h)).
Proof.
  intros Hall Hint r rs.
  assert (Hn : n = digits_value s).
  { rewrite int_of_str_all_digits in Hint by exact Hall.
    destruct (decide _); congruence. }
  assert (Hr : r = __init__ token (RepoNumber n)).
  { subst r. unfold __init__. by rewrite Hint. }
  split; [exact Hn|]. split; [exact Hr|].
  subst rs. rewrite Hr.
  split; [reflexivity|]. split; [reflexivity|]. split; [reflexivity|].
  split; [by rewrite full_name_numeric|].
  intros d. by rewrite full_name_numeric.
Qed.

(** The strings of digits that [int] reads are the non-empty ones of at
    most [int_max_str_digits] digits; a longer one stays the name of the
    repository and is addressed by the nested URL. *)
Lemma digit_string_readable s :
  all_digits s = true ->
  (is_Some (int_of_str s) <->
   s <> "" /\ (String.length s <= int_max_str_digits)%nat) /\
  ((int_max_str_digits < String.length s)%nat ->
   forall token,
     __init__ token (RepoName s) = mk token (Some s) ("/repos/" +:+ s) None).
Proof.
  intros Hall. rewrite int_of_str_all_digits by exact Hall. split.
  - destruct (decide _) as [Hd|Hd].
    + split; [by intros [? ?]|]. intros [Hne Hlen].
      destruct Hd; [done|lia].
    + split; [|by eexists]. intros _. split.
      * intros ->. apply Hd. by left.
      * destruct (Nat.le_gt_cases (String.length s) int_max_str_digits);
          [done|]. exfalso. apply Hd. by right.
  - intros Hlong token. unfold __init__.
    rewrite int_of_str_all_digits by exact Hall.
    rewrite decide_True; [reflexivity|by right].
Qed.
End Addressing.

Lemma digit_string_is_numeric_witness :
  all_digits "12345" = true /\ int_of_str "12345" = Some 12345 /\
  GitHubRepository.__init__ "token" (RepoName "12345") =
    GitHubRepository.mk "token" None "/repositories/12345" None.
Proof.
  assert (Hall : all_digits "12345" = true) by reflexivity.
  assert (Hint : int_of_str "12345" = Some 12345) by reflexivity.
  split; [exact Hall|]. split; [exact Hint|].
  destruct (digit_string_is_numeric test_service "token" "12345" 12345 []
              Hall Hint) as (_ & Hr & _).
  exact Hr.
Defined.

(** * GitHubContent *)

Section Content.
Import GitHubContent.
Context (P : provider) (b64encode : string -> string).

Lemma send_sha_step (make : json -> request) (k : json -> M t json) d r h :
  (forall sha, k sha = _fetch P (make sha)) ->
  (sha <- lift (getitem d "sha") ;; k sha ;;; ret tt) r h =
  ContentRequests.send_with_sha P make d r h.
Proof.
  intros Hk. lift_step. unfold ContentRequests.send_with_sha.
  destruct (getitem d "sha") as [sha|e]; [|reflexivity].
  unfold bind. rewrite Hk, _fetch_eq. destruct (outcome _); reflexivity.
Qed.

Lemma with_data_step (make : json -> request) (k : json -> M t json) r h :
  (forall sha, k sha = _fetch P (make sha)) ->
  (d <- data P ;; sha <- lift (getitem d "sha") ;; k sha ;;; ret tt) r h =
  match _data r with
  | Some d => ContentRequests.send_with_sha P make d r h
  | None => ContentRequests.fetch_then_send P make r h
  end.
Proof.
  intros Hk. unfold bind at 1. rewrite data_eq. cbn [cache_of igitt].
  destruct (_data r) as [d|].
  - by apply send_sha_step.
  - unfold ContentRequests.fetch_then_send. cbv zeta.
    destruct (outcome _) as [d|e]; [|reflexivity].
    by apply send_sha_step.
Qed.

(** C10. [get_content] has the unit type: whatever the service answers,
    it hands back nothing of the payload, and on success the decoded
    answer is the new snapshot.  [delete] and [update] take the ['sha'] of
    their request from the snapshot that the object holds, without a
    fetch, and they fetch the snapshot first when the object holds
    none. *)
Theorem content_snapshot (r : t) h :
  (forall ref,
     let rq := ContentRequests.get_content r ref in
     get_content P ref r h =
       (rbind (outcome (P h rq)) (fun _ => Ok tt),
        match outcome (P h rq) with
        | Ok d => with_cache (Some d) r
        | Raise _ => r
        end,
        h ++ [(rq, P h rq)])) /\
  (forall message branch,
     delete P message branch r h =
     match _data r with
     | Some d =>
         ContentRequests.send_with_sha P
           (ContentRequests.delete r message branch) d r h
     | None =>
         ContentRequests.fetch_then_send P
           (ContentRequests.delete r message branch) r h
     end) /\
  (forall message content branch,
     update P b64encode message content branch r h =
     match _data r with
     | Some d =>
         ContentRequests.send_with_sha P
           (ContentRequests.update b64encode r message content branch) d r h
     | None =>
         ContentRequests.fetch_then_send P
           (ContentRequests.update b64encode r message content branch) r h
     end).
Proof.
  split; [|split].
  - intros ref rq. unfold get_content. unfold bind at 1. unfold get_self.
    cbv zeta. unfold bind at 1. unfold GH.get. fetch_step.
    fold (ContentRequests.get_content r ref). fold rq.
    destruct (outcome _); reflexivity.
  - intros message branch. unfold delete. cbv zeta.
    unfold bind at 1. unfold get_self.
    by apply with_data_step.
  - intros message content branch. unfold update. cbv zeta.
    unfold bind at 1. unfold get_self.
    by apply with_data_step.
Qed.
End Content.

(** * Computations that hand failures on *)

Lemma hands_on_refl r h : hands_on r h h.
Proof.
  exists []. split; [by rewrite app_nil_r|].
  intros rq rs Hin. by apply elem_of_nil in Hin.
Qed.

Lemma hands_on_trans r h1 h2 h3 :
  hands_on (Ok tt) h1 h2 -> hands_on r h2 h3 -> hands_on r h1 h3.
Proof.
  intros (ex1 & -> & H1) (ex2 & -> & H2). exists (ex1 ++ ex2).
  split; [by rewrite app_assoc|].
  intros rq rs Hin Hbad. apply elem_of_app in Hin as [Hin|Hin].
  - specialize (H1 rq rs Hin Hbad). discriminate.
  - by apply (H2 rq rs).
Qed.

Section Propagates.
Context {O : Type}.

Lemma propagates_ret {A} (a : A) : propagates (O := O) (ret a).
Proof. intros o h r o' h' [= <- _ <-]. apply hands_on_refl. Qed.

Lemma propagates_raise {A} e : propagates (O := O) (A := A) (raise e).
Proof. intros o h r o' h' [= <- _ <-]. apply hands_on_refl. Qed.

Lemma propagates_lift {A} (x : result A) : propagates (O := O) (lift x).
Proof. intros o h r o' h' [= <- _ <-]. apply hands_on_refl. Qed.

Lemma propagates_get_self : propagates (O := O) get_self.
Proof. intros o h r o' h' [= <- _ <-]. apply hands_on_refl. Qed.

Lemma propagates_put_self o1 : propagates (O := O) (put_self o1).
Proof. intros o h r o' h' [= <- _ <-]. apply hands_on_refl. Qed.

Lemma propagates_fetch P rq : propagates (O := O) (_fetch P rq).
Proof.
  intros o h r o' h'. rewrite _fetch_eq. intros [= <- _ <-].
  exists [(rq, P h rq)]. split; [reflexivity|].
  intros rq' rs' Hin Hbad. apply list_elem_of_singleton in Hin as [= -> ->].
  unfold outcome. by rewrite Hbad.
Qed.

Lemma propagates_bind {A B} (m : M O A) (k : A -> M O B) :
  propagates m -> (forall a, propagates (k a)) -> propagates (bind m k).
Proof.
  intros Hm Hk o h r o' h'. unfold bind.
  destruct (m o h) as [[[a|e] o1] h1] eqn:E.
  - intros E'. apply Hm in E. apply Hk in E'.
    eapply hands_on_trans; eassumption.
  - intros [= <- _ <-]. by apply Hm in E.
Qed.

Lemma propagates_forM_ {A} (l : list A) (f : A -> M O unit) :
  (forall x, propagates (f x)) -> propagates (forM_ l f).
Proof.
  intros Hf. induction l as [|x l IH]; simpl.
  - apply propagates_ret.
  - apply propagates_bind; [apply Hf|intros _; exact IH].
Qed.

Lemma propagates_mapM {A B} (l : list A) (f : A -> M O B) :
  (forall x, propagates (f x)) -> propagates (mapM f l).
Proof.
  intros Hf. induction l as [|x l IH]; simpl.
  - apply propagates_ret.
  - apply propagates_bind; [apply Hf|intros y].
    apply propagates_bind; [exact IH|intros ys; apply propagates_ret].
Qed.

Lemma propagates_data P `{IGittObject O} : propagates (data P).
Proof.
  unfold data. apply propagates_bind; [apply propagates_get_self|].
  intros self. destruct (cache_of self); [apply propagates_ret|].
  apply propagates_bind; [apply propagates_fetch|intros d].
  apply propagates_bind; [apply propagates_put_self|intros _].
  apply propagates_ret.
Qed.

Lemma propagates_set_data `{IGittObject O} d : propagates (set_data d).
Proof.
  unfold set_data. apply propagates_bind; [apply propagates_get_self|].
  intros self. apply propagates_put_self.
Qed.

Lemma propagates_static {A} (f : history -> result A * history) :
  static_propagates f ->
  propagates (O := O) (fun o h => let '(r, h') := f h in (r, o, h')).
Proof.
  intros Hf o h r o' h'. destruct (f h) as [r1 h1] eqn:E.
  intros [= <- _ <-]. by apply Hf in E.
Qed.
End Propagates.

Ltac propagates :=
  repeat first
    [ apply propagates_ret | apply propagates_raise | apply propagates_lift
    | apply propagates_get_self | apply propagates_put_self
    | apply propagates_fetch | apply propagates_data
    | apply propagates_set_data
    | apply propagates_bind | apply propagates_forM_ | apply propagates_mapM
    | progress intros
    | match goal with
      | |- propagates (if ?b then _ else _) => destruct b
      | |- propagates (match ?x with _ => _ end) => destruct x
      end ].

(** * GitHubRepository: the empty repository *)

Section Commits.
Import GitHubRepository.
Context (P : provider) (py_repr : json -> string)
        (b64encode : string -> string)
        (strftime : datetime -> string -> string)
        (GitHubIssue_create :
           string -> json -> string -> string ->
           history -> result entity * history).

Lemma commits_listing_fails r h :
  let rq := Requests.list_commits r in
  let rs := P h rq in
  ok_status (status rs) = false ->
  commits P r h =
  (if status rs =? 409 then Ok [] else Raise (transport_error rs),
   r, h ++ [(rq, rs)]).
Proof.
  intros rq rs Hbad. unfold commits, try_except_RuntimeError.
  unfold bind at 1. unfold get_self. unfold bind at 1. unfold GH.get.
  fetch_step. fold (Requests.list_commits r). fold rq. fold rs.
  unfold outcome. rewrite Hbad. unfold transport_error. cbn [lookup].
  simpl. destruct (status rs =? 409); reflexivity.
Qed.

Lemma propagates_run op :
  (forall token repository title body,
     static_propagates (GitHubIssue_create token repository title body)) ->
  op <> Op_commits ->
  propagates (run P py_repr b64encode strftime GitHubIssue_create op).
Proof.
  intros Hcreate Hop.
  destruct op; try congruence; cbn [run]; unfold void;
    unfold identifier, top_level_org, clone_url, get_labels, create_label,
      delete_label, get_issue, get_mr, register_hook, hooks, delete_hook,
      merge_requests, issues, filter_issues, create_issue, create_fork,
      delete, create_merge_request, create_file, next, yield_from,
      get_issue, get_mr, _search, full_name,
      GH.get, GH.post, GH.put, GH.delete;
    propagates;
    try (apply propagates_static, Hcreate).
Qed.

(** C4. When the service answers the listing of the commits with 409,
    [commits] returns the empty set; any other status outside 2xx is
    raised as the [RuntimeError] of that answer, body and status
    unchanged.  Every other operation of the class hands a failure of the
    service on: an exchange that it has made and that was answered with a
    status outside 2xx, 409 included, makes it raise the error of that
    answer instead of returning a value. *)
Theorem empty_repository_only_in_commits (r : t) h :
  (forall token repository title body,
     static_propagates (GitHubIssue_create token repository title body)) ->
  let rq := Requests.list_commits r in
  let rs := P h rq in
  (status rs = 409 -> commits P r h = (Ok [], r, h ++ [(rq, rs)])) /\
  (ok_status (status rs) = false -> status rs <> 409 ->
   commits P r h = (Raise (transport_error rs), r, h ++ [(rq, rs)])) /\
  (forall op,
     op <> Op_commits ->
     forall res r' h',
       run P py_repr b64encode strftime GitHubIssue_create op r h
         = (res, r', h') ->
       exists exchanges,
         h' = h ++ exchanges /\
         forall rq' rs',
           (rq', rs') ∈ exchanges -> ok_status (status rs') = false ->
           res = Raise (transport_error rs')).
Proof.
  intros Hcreate rq rs. split; [|split].
  - intros H409. rewrite commits_listing_fails.
    + fold rq rs. by rewrite H409.
    + fold rq rs. by rewrite H409.
  - intros Hbad Hne. rewrite commits_listing_fails by exact Hbad.
    fold rq rs. by rewrite (proj2 (Z.eqb_neq _ _) Hne).
  - intros op Hop res r' h' Hrun.
    apply (propagates_run op Hcreate Hop) in Hrun.
    destruct Hrun as (ex & -> & Hex). exists ex. split; [reflexivity|].
    intros rq' rs' Hin Hbad. specialize (Hex rq' rs' Hin Hbad).
    destruct res as [[]|e]; [discriminate|exact Hex].
Qed.
End Commits.

Lemma test_issue_create_propagates token repository title body :
  static_propagates (test_issue_create token repository title body).
Proof. intros h r h' [= <- <-]. apply hands_on_refl. Qed.

Lemma empty_repository_only_in_commits_witness :
  let rq := Requests.list_commits test_repo in
  (forall token repository title body,
     static_propagates (test_issue_create token repository title body)) /\
  status (test_service [] rq) = 409 /\
  GitHubRepository.commits test_service test_repo [] =
    (Ok [], test_repo, [(rq, test_service [] rq)]).
Proof.
  intros rq. split; [exact test_issue_create_propagates|].
  split; [reflexivity|].
  destruct (empty_repository_only_in_commits test_service test_repr
              test_b64encode test_strftime test_issue_create test_repo []
              test_issue_create_propagates) as (H409 & _).
  apply H409. reflexivity.
Defined.

(** [commits] itself does turn the 409 into a value. *)
Example commits_converts_409 :
  GitHubRepository.run test_service test_repr test_b64encode test_strftime
                       test_issue_create GitHubRepository.Op_commits
                       test_repo [] =
  (Ok tt, test_repo,
   [(Requests.list_commits test_repo,
     mkResponse 409 "Git Repository is empty." JNull)]).
Proof. reflexivity. Qed.

(** * GitHubRepository: searching *)

Section Search.
Import GitHubRepository.
Context (P : provider) (strftime : datetime -> string -> string).

(** On a repository addressed by name, the first step of a search with
    conflicting bounds raises the conflict error, and no request has been
    made. *)
Lemma search_conflict_named (r : t) h s k a :
  _repository r = Some s -> conflicting a = true ->
  next P strftime (GenNew k a) r h = (Raise conflict_error, r, h).
Proof.
  intros Hr Ha. unfold next, _search. unfold bind at 1. unfold bind at 1.
  unfold get_self. rewrite Hr. unfold bind at 1. unfold ret at 1.
  unfold conflicting in Ha. rewrite Ha. reflexivity.
Qed.

(** C5. On a repository addressed by number the stored name is [None],
    and the query string is put together from it before the bounds are
    looked at: the first step of [search_issues] and of [search_mrs]
    raises [TypeError], whatever the bounds, and so also when they are in
    conflict; no request has been made. *)
Theorem search_on_numbered_repository token n a h :
  let r := __init__ token (RepoNumber n) in
  next P strftime (search_issues a) r h = (Raise TypeError, r, h) /\
  next P strftime (search_mrs a) r h = (Raise TypeError, r, h).
Proof. split; reflexivity. Qed.
End Search.

Example search_conflict_examples :
  let both := mkSearch (Some day_one) (Some day_two) None None in
  GitHubRepository.next test_service test_strftime
    (GitHubRepository.search_issues both) test_repo [] =
    (Raise conflict_error, test_repo, []) /\
  GitHubRepository.next test_service test_strftime
    (GitHubRepository.search_mrs both)
    (GitHubRepository.__init__ "token" (RepoNumber 42)) [] =
    (Raise TypeError, GitHubRepository.__init__ "token" (RepoNumber 42), []).
Proof. split; reflexivity. Qed.

(** * The first entry of each key *)

Section FirstPerKey.
Context {A : Type}.
Implicit Types l : list (pykey * A).





End FirstPerKey.


(** * GitLabCommit: statuses *)

Section Statuses.
Import GitLabCommit.



End Statuses.



(** * GitLabCommit: comments *)

Lemma bind_eq {O A B} (m : M O A) (k : A -> M O B) o h :
  bind m k o h =
  match m o h with
  | (Ok a, o', h') => k a o' h'
  | (Raise e, o', h') => (Raise e, o', h')
  end.
Proof. reflexivity. Qed.

Ltac bind_step :=
  match goal with
  | |- context [@bind ?O ?A ?B ?m ?k ?o ?h] =>
      rewrite (@bind_eq O A B m k o h)
  end.

Section Comments.
Import GitLabCommit.
Context (P : provider) (quote_plus : string -> string)
        (get_diff_index : json -> Z -> result (option Z)).

Lemma find_patch_absent file items :
  file_absent file items ->
  find_patch file items =
  Raise (ElementDoesntExistError "The file does not exist.").
Proof.
  induction 1 as [|patch items (np & op & Hnp & Hop & Hn & Ho) _ IH];
    [reflexivity|].
  cbn [find_patch]. by rewrite Hnp, Hop, Hn, Ho.
Qed.

Lemma get_patch_for_file_eq (c : t) h file resp items :
  outcome (P h (CommitRequests.diff c)) = Ok resp ->
  iter resp = Ok items ->
  get_patch_for_file P file c h =
  (find_patch file items, c,
   h ++ [(CommitRequests.diff c, P h (CommitRequests.diff c))]).
Proof.
  intros Hresp Hiter. unfold get_patch_for_file.
  bind_step. unfold get_self. cbv beta iota.
  bind_step. unfold GL.get. fetch_step. fold (CommitRequests.diff c).
  rewrite Hresp. cbv beta iota. lift_step. rewrite Hiter. reflexivity.
Qed.

(** C6. Let the diff of the commit be fetched, and let the file have no
    patch in it, or let the index of the line in the patch of the file be
    [None] or zero.  Then [comment] with a file and a line posts one
    comment without the keys of an inline comment; its note is the message
    after the context that names the commit, the file and the line.  The
    comment goes to the comments of the commit, or, when a merge request is
    named, to the notes of that merge request, with the same text as its
    body. *)
Theorem comment_fallback (c : t) h message file line mr_number resp items
    s c2 h2 :
  let h1 := h ++ [(CommitRequests.diff c, P h (CommitRequests.diff c))] in
  outcome (P h (CommitRequests.diff c)) = Ok resp ->
  iter resp = Ok items ->
  (file_absent file items \/
   exists patch,
     find_patch file items = Ok patch /\
     (get_diff_index patch line = Ok None \/
      get_diff_index patch line = Ok (Some 0))) ->
  sha P c h1 = (Ok (JStr s), c2, h2) ->
  let note := CommitRequests.fallback_note s file line message in
  let rq := CommitRequests.post_comment quote_plus c mr_number note in
  comment P quote_plus get_diff_index message (Some file) (Some line)
          mr_number c h =
    (rbind (outcome (P h2 rq)) (fun _ => Ok tt), c2, h2 ++ [(rq, P h2 rq)]) /\
  assoc "note" (rq_data rq) = Some (JStr note) /\
  assoc "line" (rq_data rq) = None /\
  assoc "path" (rq_data rq) = None /\
  rq_url rq =
    match mr_number with
    | None => _url c +:+ "/comments"
    | Some mr_iid =>
        "/projects/" +:+ quote_plus (_repository c) +:+
        "/merge_requests/" +:+ str_of_Z mr_iid +:+ "/notes"
    end.
Proof.
  intros h1 Hresp Hiter Hfallback Hsha note rq.
  split; [|subst rq; destruct mr_number; repeat split].
  unfold comment. bind_step. unfold get_self. cbv beta iota zeta.
  bind_step.
  assert (Hfirst :
    try_except_DoesntExist
      (patch <- get_patch_for_file P file ;;
       index <- lift (get_diff_index patch line) ;;
       match index with
       | Some i =>
           if i =? 0
           then ret [("note", JStr message); ("line_type", JStr "new")]
           else ret (dict_set "path" (JStr file)
                       (dict_set "line" (JNum i)
                          [("note", JStr message);
                           ("line_type", JStr "new")]))
       | None => ret [("note", JStr message); ("line_type", JStr "new")]
       end)
      (ret [("note", JStr message); ("line_type", JStr "new")]) c h =
    (Ok [("note", JStr message); ("line_type", JStr "new")], c, h1)).
  { unfold try_except_DoesntExist. bind_step.
    rewrite (get_patch_for_file_eq c h file resp items Hresp Hiter).
    fold h1. destruct Hfallback as [Habsent|(patch & Hpatch & Hindex)].
    - by rewrite (find_patch_absent file items Habsent).
    - rewrite Hpatch. cbv beta iota. lift_step.
      by destruct Hindex as [-> | ->]. }
  rewrite Hfirst. cbv beta iota.
  bind_step. cbn [assoc String.eqb Ascii.eqb Bool.eqb].
  bind_step. rewrite Hsha. cbv beta iota.
  unfold ret at 1. cbv beta iota.
  fold (CommitRequests.fallback_note s file line message). fold note.
  destruct mr_number as [mr_iid|].
  - bind_step. unfold lift at 1, getitem.
    cbn [assoc dict_set String.eqb Ascii.eqb Bool.eqb]. cbv beta iota.
    bind_step. unfold GL.post. fetch_step.
    unfold rq, CommitRequests.post_comment.
    destruct (outcome (P h2 _)); reflexivity.
  - cbn [dict_set String.eqb Ascii.eqb Bool.eqb].
    bind_step. unfold GL.post. fetch_step.
    unfold rq, CommitRequests.post_comment.
    destruct (outcome (P h2 _)); reflexivity.
Qed.
End Comments.

Lemma comment_fallback_witness :
  let d := CommitRequests.diff test_commit in
  let h1 := [(d, test_service [] d)] in
  let note :=
    CommitRequests.fallback_note "3fc4b86" "READMENOT.md" 4
                                 "Oh, this'll end up below!!" in
  let rq := CommitRequests.post_comment test_quote_plus test_commit None
                                        note in
  outcome (test_service [] d) = Ok (JArr [patch "README.md"]) /\
  file_absent "READMENOT.md" [patch "README.md"] /\
  GitLabCommit.sha test_service test_commit h1 =
    (Ok (JStr "3fc4b86"), test_commit, h1) /\
  GitLabCommit.comment test_service test_quote_plus test_diff_index
    "Oh, this'll end up below!!" (Some "READMENOT.md") (Some 4) None
    test_commit [] =
    (Ok tt, test_commit, h1 ++ [(rq, test_service h1 rq)]).
Proof.
  intros d h1 note rq.
  assert (Hresp : outcome (test_service [] d) = Ok (JArr [patch "README.md"]))
    by reflexivity.
  assert (Habsent : file_absent "READMENOT.md" [patch "README.md"]).
  { repeat constructor. do 2 eexists. repeat split; reflexivity. }
  assert (Hsha : GitLabCommit.sha test_service test_commit h1 =
                 (Ok (JStr "3fc4b86"), test_commit, h1)) by reflexivity.
  split; [exact Hresp|]. split; [exact Habsent|]. split; [exact Hsha|].
  destruct (comment_fallback test_service test_quote_plus test_diff_index
              test_commit [] "Oh, this'll end up below!!" "READMENOT.md" 4
              None (JArr [patch "README.md"]) [patch "README.md"]
              "3fc4b86" test_commit h1 Hresp eq_refl (or_introl Habsent)
              Hsha) as (Hcomment & _).
  exact Hcomment.
Defined.
